(** * The inference handlers of the placeholder model

    A shallow embedding of the SageMaker inference script that
    [create_inference_script] of [create_placeholder_model.py] writes out
    ([input_fn] and [output_fn]), and the properties of its request
    normaliser and its response formatter.

    Conventions of the embedding.
    - A Python value produced by [json.loads] is a [pyval].  A Python float
      is represented by the rational number it denotes: IEEE rounding, NaN
      and the infinities are outside the model.
    - A Python dict is an association list in insertion order; a lookup
      takes the first binding of a key.
    - A raised exception is the left summand of [result].
    - The [json] module is not part of the script: [json.loads] and
      [json.dumps] are parameters of the handlers.
    - An array made by [np.array] is kept as the nested list it was built
      from ([nd_items]).  The elements the array stores are those values
      converted to one common dtype: [tolist] gives them, for the boolean,
      int64 and float64 dtypes; the text and object dtypes are not
      modelled. *)

From Stdlib Require Import List String Ascii Bool ZArith QArith Lia Lqa.
From Stdlib Require Import DecimalString Permutation.
Import ListNotations.
Open Scope string_scope.

Set Implicit Arguments.

(** ** Python values *)

#[warnings="-register-all"]
Inductive pyval : Type :=
| PNone
| PBool (b : bool)
| PInt (z : Z)
| PFloat (q : Q)
| PStr (s : string)
| PList (items : list pyval)
| PDict (bindings : list (string * pyval)).

Definition pydict := list (string * pyval).

(** ** Exceptions *)

Inductive exn_class : Type :=
| CJSONDecodeError
| CValueError
| CTypeError
| CAttributeError
| CKeyError.

(** [JSONDecodeError] is what [json.loads] raises on a body that is not
    JSON; [ValueError msg] is [raise ValueError(msg)], in the script or in a
    library; [TypeError] and [AttributeError] come from applying [in], [[]],
    iteration or [.get] to a value that has no such operation; [KeyError]
    from subscripting a dict with a key it does not bind. *)
Inductive exception : Type :=
| JSONDecodeError
| ValueError (msg : string)
| TypeError
| AttributeError
| KeyError.

Definition class_of (e : exception) : exn_class :=
  match e with
  | JSONDecodeError => CJSONDecodeError
  | ValueError _ => CValueError
  | TypeError => CTypeError
  | AttributeError => CAttributeError
  | KeyError => CKeyError
  end.

(** Python's class hierarchy: [json.JSONDecodeError] derives from
    [ValueError]. *)
Definition subclass (c d : exn_class) : bool :=
  match c, d with
  | CJSONDecodeError, (CJSONDecodeError | CValueError) => true
  | CValueError, CValueError => true
  | CTypeError, CTypeError => true
  | CAttributeError, CAttributeError => true
  | CKeyError, CKeyError => true
  | _, _ => false
  end.

Definition isinstance (e : exception) (d : exn_class) : bool :=
  subclass (class_of e) d.

(** ** The error monad *)

Definition result (A : Type) : Type := (exception + A)%type.

Definition ret {A : Type} (a : A) : result A := inr a.
Definition raise {A : Type} (e : exception) : result A := inl e.

Definition bind {A B : Type} (m : result A) (k : A -> result B) : result B :=
  match m with
  | inl e => inl e
  | inr a => k a
  end.

Notation "x <- m ;; k" := (bind m (fun x => k))
  (at level 61, m at next level, right associativity).

(** ** Operations of Python values used by the script *)

Fixpoint dict_get (k : string) (d : pydict) : option pyval :=
  match d with
  | [] => None
  | (k', v) :: rest => if String.eqb k k' then Some v else dict_get k rest
  end.

Definition dict_mem (k : string) (d : pydict) : bool :=
  match dict_get k d with
  | Some _ => true
  | None => false
  end.

Definition is_str (k : string) (v : pyval) : bool :=
  match v with
  | PStr s => String.eqb k s
  | _ => false
  end.

Fixpoint is_substring (needle hay : string) : bool :=
  String.prefix needle hay
  || match hay with
     | EmptyString => false
     | String _ rest => is_substring needle rest
     end.

(** [k in v]: key membership in a dict, element membership in a list,
    substring test on a string, [TypeError] on anything else. *)
Definition py_contains (k : string) (v : pyval) : result bool :=
  match v with
  | PDict d => ret (dict_mem k d)
  | PList xs => ret (existsb (is_str k) xs)
  | PStr s => ret (is_substring k s)
  | _ => raise TypeError
  end.

(** [v[k]] with a string [k].  The script subscripts only after [k in v]
    held; on a dict the key is then bound.  Lists and strings take integer
    subscripts only. *)
Definition py_getitem (v : pyval) (k : string) : result pyval :=
  match v with
  | PDict d =>
      match dict_get k d with
      | Some x => ret x
      | None => raise KeyError
      end
  | _ => raise TypeError
  end.

Fixpoint chars_of (s : string) : list pyval :=
  match s with
  | EmptyString => []
  | String c rest => PStr (String c EmptyString) :: chars_of rest
  end.

(** [for x in v]: the elements of a list, the keys of a dict, the characters
    of a string. *)
Definition py_iter (v : pyval) : result (list pyval) :=
  match v with
  | PList xs => ret xs
  | PDict d => ret (map (fun kv => PStr (fst kv)) d)
  | PStr s => ret (chars_of s)
  | _ => raise TypeError
  end.

(** [v.get(k, default)]: only a dict has [.get]. *)
Definition py_get (v : pyval) (k : string) (default : pyval) : result pyval :=
  match v with
  | PDict d =>
      match dict_get k d with
      | Some x => ret x
      | None => ret default
      end
  | _ => raise AttributeError
  end.

(** ** numpy arrays *)

(** An array is the nested list it was built from together with its
    shape.  What the array stores is that list converted to the common
    dtype of its elements, see [tolist]. *)
Record ndarray : Type := mk_ndarray {
  nd_shape : list nat;
  nd_items : pyval
}.

Definition shape_eqb (a b : option (list nat)) : bool :=
  match a, b with
  | Some s, Some t => if list_eq_dec Nat.eq_dec s t then true else false
  | _, _ => false
  end.

(** The shape numpy discovers: a list of [n] items of one common shape [s]
    has shape [n :: s]; anything that is not a list is an element.  [None]
    is a ragged nesting. *)
Fixpoint shape_of (v : pyval) : option (list nat) :=
  match v with
  | PList xs =>
      match xs with
      | [] => Some [0%nat]
      | x :: rest =>
          match shape_of x with
          | Some s =>
              if forallb (fun y => shape_eqb (shape_of y) (Some s)) rest
              then Some (List.length xs :: s)
              else None
          | None => None
          end
      end
  | _ => Some []
  end.

Definition NPY_MAXDIMS : nat := 32.

(** The first sentence of the message of numpy's [ValueError]; the rest of
    the message, which describes the shape found so far, is left out. *)
Definition inhomogeneous : string :=
  "setting an array element with a sequence.".

(** [np.array(v)] in numpy 1.24.3, the version [create_requirements] pins:
    a ragged or too deeply nested list raises [ValueError]. *)
Definition np_array (v : pyval) : result ndarray :=
  match shape_of v with
  | Some s =>
      if (List.length s <=? NPY_MAXDIMS)%nat
      then ret (mk_ndarray s v)
      else raise (ValueError inhomogeneous)
  | None => raise (ValueError inhomogeneous)
  end.

(** [len(a)], and the rows of the list the array was built from. *)
Definition nd_len (a : ndarray) : nat := hd 0%nat (nd_shape a).

Definition nd_rows (a : ndarray) : list pyval :=
  match nd_items a with
  | PList xs => xs
  | _ => []
  end.

(** ** [input_fn] *)

Definition application_json : string := "application/json".

Definition missing_keys : string :=
  "Input must contain 'features' or 'contacts' key".

Definition unsupported_content_type (content_type : string) : string :=
  "Unsupported content type: " ++ content_type.

(** The list appended for one contact (lines 112-116). *)
Definition contact_row (contact : pyval) : result pyval :=
  d <- py_get contact "day_of_week" (PInt 0) ;;
  h <- py_get contact "hour_of_day" (PInt 12) ;;
  r <- py_get contact "previous_answer_rate" (PFloat (1 # 2)) ;;
  ret (PList [d; h; r]).

(** The loop of lines 110-116: [features] is the accumulator. *)
Fixpoint contacts_loop (features : list pyval) (contacts : list pyval)
  : result (list pyval) :=
  match contacts with
  | [] => ret features
  | contact :: rest =>
      row <- contact_row contact ;;
      contacts_loop (features ++ [row]) rest
  end.

(** Lines 104-120 of [input_fn]: what is done with the decoded body. *)
Definition normalize (input_data : pyval) : result ndarray :=
  has_features <- py_contains "features" input_data ;;
  if has_features then
    f <- py_getitem input_data "features" ;;
    np_array (PList [f])
  else
    has_contacts <- py_contains "contacts" input_data ;;
    if has_contacts then
      cs <- py_getitem input_data "contacts" ;;
      contacts <- py_iter cs ;;
      features <- contacts_loop [] contacts ;;
      np_array (PList features)
    else
      raise (ValueError missing_keys).

(** ** [output_fn] *)

(** What [predict_fn] hands to [output_fn]: the labels of
    [model.predict] and the rows of [model.predict_proba]. *)
Record prediction : Type := mk_prediction {
  predictions : list Z;
  probabilities : list (list Q)
}.

(** [item > max_item] on floats. *)
Definition Qgtb (a b : Q) : bool := negb (Qle_bool a b).

(** The builtin [max] on a sequence: the first item, replaced by each later
    item that is greater. *)
Fixpoint max_loop (max_item : Q) (items : list Q) : Q :=
  match items with
  | [] => max_item
  | item :: rest =>
      max_loop (if Qgtb item max_item then item else max_item) rest
  end.

Definition max_empty : string := "max() arg is an empty sequence".

Definition py_max (items : list Q) : result Q :=
  match items with
  | [] => raise (ValueError max_empty)
  | first :: rest => ret (max_loop first rest)
  end.

(** [[float(max(probs)) for probs in probabilities]] (line 149). *)
Fixpoint confidences (probabilities : list (list Q)) : result (list Q) :=
  match probabilities with
  | [] => ret []
  | probs :: rest =>
      c <- py_max probs ;;
      cs <- confidences rest ;;
      ret (c :: cs)
  end.

(** The dict [result] of lines 151-154. *)
Definition response (optimal_hours : list Z) (confidence : list Q) : pyval :=
  PDict [("optimal_hours", PList (map PInt optimal_hours));
         ("confidence", PList (map PFloat confidence))].

Definition unsupported_accept_type (accept : string) : string :=
  "Unsupported accept type: " ++ accept.

Section Handlers.

(** [json.loads]: [None] when the body is not JSON. *)
Variable json_loads : string -> option pyval.

(** [json.dumps]. *)
Variable json_dumps : pyval -> string.

Definition input_fn (request_body content_type : string) : result ndarray :=
  if String.eqb content_type application_json then
    match json_loads request_body with
    | None => raise JSONDecodeError
    | Some input_data => normalize input_data
    end
  else
    raise (ValueError (unsupported_content_type content_type)).

Definition output_fn (p : prediction) (accept : string)
  : result (string * string) :=
  if String.eqb accept application_json then
    confidence <- confidences (probabilities p) ;;
    ret (json_dumps (response (predictions p) confidence), accept)
  else
    raise (ValueError (unsupported_accept_type accept)).

End Handlers.

(** ** A concrete codec

    Used to run the handlers on concrete requests.  [loads_of] decodes the
    bodies listed in a table and rejects every other body; [dumps] lays a
    value out the way [json.dumps] does (separators [", "] and [": "]),
    for strings that need no escaping, and writes a float as the exact
    fraction it denotes. *)
Module Sample.

Definition loads_of (table : list (string * pyval)) (body : string)
  : option pyval :=
  dict_get body table.

Definition dquote : string := String (ascii_of_nat 34) EmptyString.

Definition show_Z (z : Z) : string :=
  NilZero.string_of_int (Z.to_int z).

Fixpoint join (sep : string) (parts : list string) : string :=
  match parts with
  | [] => EmptyString
  | [x] => x
  | x :: rest => x ++ sep ++ join sep rest
  end.

Fixpoint dumps (v : pyval) : string :=
  match v with
  | PNone => "null"
  | PBool true => "true"
  | PBool false => "false"
  | PInt z => show_Z z
  | PFloat q => show_Z (Qnum q) ++ "/" ++ show_Z (Zpos (Qden q))
  | PStr s => dquote ++ s ++ dquote
  | PList xs => "[" ++ join ", " (map dumps xs) ++ "]"
  | PDict d =>
      "{" ++ join ", "
               (map (fun kv => match kv with
                               | (k, x) => dquote ++ k ++ dquote ++ ": " ++ dumps x
                               end) d)
          ++ "}"
  end.

(** The payloads that [test_endpoint.py] sends, and a few more. *)
Definition single_payload : pydict :=
  [("features", PList [PInt 1; PInt 10; PFloat (1 # 2)])].

Definition batch_payload : pydict :=
  [("contacts",
    PList (map PDict
      [[("day_of_week", PInt 1); ("hour_of_day", PInt 10);
        ("previous_answer_rate", PFloat (1 # 2))];
       [("day_of_week", PInt 2); ("hour_of_day", PInt 15);
        ("previous_answer_rate", PFloat (3 # 10))];
       [("day_of_week", PInt 5); ("hour_of_day", PInt 19);
        ("previous_answer_rate", PFloat (7 # 10))]]))].

Definition partial_payload : pydict :=
  [("contacts", PList (map PDict [[]; [("hour_of_day", PInt 3)]]))].

Definition empty_payload : pydict := [("contacts", PList [])].

Definition invalid_payload : pydict :=
  [("data", PList [PInt 1; PInt 2; PInt 3])].

Definition scalar_payload : pydict := [("features", PInt 5)].

Definition both_payload : pydict :=
  [("contacts", PList [PDict [("day_of_week", PInt 2)]]);
   ("features", PList [PInt 6; PInt 12; PFloat (2 # 5)])].

Definition body_of (d : pydict) : string := dumps (PDict d).

Definition requests : list (string * pyval) :=
  map (fun d => (body_of d, PDict d))
      [single_payload; batch_payload; partial_payload; empty_payload;
       invalid_payload; scalar_payload; both_payload].

Definition loads : string -> option pyval := loads_of requests.

End Sample.

(** ** Vocabulary of the statements *)

Definition is_number (v : pyval) : bool :=
  match v with
  | PInt _ | PFloat _ => true
  | _ => false
  end.

(** An element for numpy: any value that is not a list. *)
Definition is_scalar (v : pyval) : bool :=
  match v with
  | PList _ => false
  | _ => true
  end.

Definition field (c : pydict) (k : string) (default : pyval) : pyval :=
  match dict_get k c with
  | Some x => x
  | None => default
  end.

Definition row_of (c : pydict) : list pyval :=
  [field c "day_of_week" (PInt 0);
   field c "hour_of_day" (PInt 12);
   field c "previous_answer_rate" (PFloat (1 # 2))].

(** A contact whose three fields, where given, hold elements and not
    lists. *)
Definition scalar_contact (c : pydict) : bool := forallb is_scalar (row_of c).

(** The shape of the array of [n] contacts. *)
Definition batch_shape (n : nat) : list nat :=
  match n with
  | O => [0%nat]
  | S _ => [n; 3%nat]
  end.

(** The error of line 120. *)
Definition validation_error : exception := ValueError missing_keys.

Definition sumQ (row : list Q) : Q := fold_right Qplus 0 row.

(** A row of [predict_proba] as the data model has it: it sums to 1. *)
Definition sums_to_one (row : list Q) : bool := Qeq_bool (sumQ row) 1.

(** A probability distribution: non-negative entries that sum to 1. *)
Definition is_distribution (row : list Q) : bool :=
  forallb (Qle_bool 0) row && sums_to_one row.

(** ** [predict_fn] *)

(** The loaded model, as [predict_fn] uses it: the two methods of the
    scikit-learn classifier, each of which may raise. *)
Record classifier : Type := mk_classifier {
  predict : ndarray -> result (list Z);
  predict_proba : ndarray -> result (list (list Q))
}.

Definition predict_fn (input_data : ndarray) (model : classifier)
  : result prediction :=
  labels <- predict model input_data ;;
  rows <- predict_proba model input_data ;;
  ret (mk_prediction labels rows).

(** ** The training targets of [create_placeholder_model] *)

(** A row of [X]: [day_of_week], [hour_of_day], [previous_answer_rate]. *)
Definition sample : Type := (Q * Q * Q)%type.

(** [X[:, 1]] for one row. *)
Definition hour_column (row : sample) : Q := snd (fst row).

(** One element of the nested [np.where] of lines 50-58. *)
Definition target (hour : Q) : Z :=
  if Qle_bool 9 hour && Qle_bool hour 11 then 10%Z
  else if Qle_bool 18 hour && Qle_bool hour 20 then 19%Z
  else 14%Z.

(** The vector [y]. *)
Definition targets (X : list sample) : list Z :=
  map (fun row => target (hour_column row)) X.

(** ** Further vocabulary *)

(** The values [for ... in] accepts. *)
Definition is_iterable (v : pyval) : bool :=
  match v with
  | PList _ | PDict _ | PStr _ => true
  | _ => false
  end.

Definition is_dict (v : pyval) : bool :=
  match v with
  | PDict _ => true
  | _ => false
  end.

(** Two contacts that bind the three feature keys alike. *)
Definition same_fields (c c' : pydict) : Prop :=
  dict_get "day_of_week" c = dict_get "day_of_week" c'
  /\ dict_get "hour_of_day" c = dict_get "hour_of_day" c'
  /\ dict_get "previous_answer_rate" c = dict_get "previous_answer_rate" c'.

(** A model that answers each row with hour 14 and certainty. *)
Definition afternoon_model : classifier :=
  mk_classifier (fun m => ret (repeat 14%Z (nd_len m)))
                (fun m => ret (repeat [1] (nd_len m))).

(** ** The test suite of [test_endpoint.py]

    The suite talks to a deployed endpoint through boto3.  The endpoint
    and its clients are parameters: a call takes the state of the world
    and gives back its outcome and the next state.  What the suite prints
    is not modelled. *)

Inductive harness_exn : Type :=
| ClientError (code : string)   (* botocore.exceptions.ClientError *)
| ResponseNotJSON               (* json.loads failed on the response *)
| OtherException.               (* any other Exception of a client call *)

Definition io (world A : Type) : Type :=
  world -> (harness_exn + A) * world.

Definition io_ret {world A : Type} (a : A) : io world A :=
  fun w => (inr a, w).

Definition io_bind {world A B : Type} (m : io world A) (k : A -> io world B)
  : io world B :=
  fun w =>
    match m w with
    | (inl e, w') => (inl e, w')
    | (inr a, w') => k a w'
    end.

(** [try: body  except ClientError: handler]. *)
Definition except_ClientError {world A : Type}
           (body : io world A) (handler : string -> io world A) : io world A :=
  fun w =>
    match body w with
    | (inl (ClientError code), w') => handler code w'
    | r => r
    end.

(** [try: body  except ClientError: h1  except Exception: h2]. *)
Definition except_Exception {world A : Type}
           (body : io world A) (h1 : string -> io world A)
           (h2 : harness_exn -> io world A) : io world A :=
  fun w =>
    match body w with
    | (inl (ClientError code), w') => h1 code w'
    | (inl e, w') => h2 e w'
    | r => r
    end.

(** The cases of [test_edge_cases] (lines 98-119). *)
Definition edge_test_cases : list (string * pyval) :=
  [("Weekend day", PDict [("features", PList [PInt 6; PInt 12; PFloat (2 # 5)])]);
   ("Early morning", PDict [("features", PList [PInt 3; PInt 6; PFloat (1 # 5)])]);
   ("Late evening", PDict [("features", PList [PInt 4; PInt 22; PFloat (3 # 5)])]);
   ("Zero answer rate", PDict [("features", PList [PInt 2; PInt 14; PFloat 0])]);
   ("Perfect answer rate", PDict [("features", PList [PInt 1; PInt 11; PFloat 1])])].

(** The payloads of [test_error_handling] (lines 156-160). *)
Definition invalid_payloads : list (string * pyval) :=
  [("Missing features key", PDict [("data", PList [PInt 1; PInt 2; PInt 3])]);
   ("Invalid JSON", PStr "not json");
   ("Empty payload", PDict [])].

Section Harness.

Variable world : Type.

(** [client.invoke_endpoint(EndpointName, ContentType, Body)], giving the
    decoded text of [response['Body']]. *)
Variable invoke_endpoint : string -> string -> string -> io world string.

(** [client.describe_endpoint(EndpointName)], giving
    [response['EndpointStatus']]. *)
Variable describe_endpoint : string -> io world string.

Variable json_loads : string -> option pyval.
Variable json_dumps : pyval -> string.

Definition decode (text : string) : io world pyval :=
  fun w =>
    match json_loads text with
    | Some v => (inr v, w)
    | None => (inl ResponseNotJSON, w)
    end.

(** The two statements every [try] block of the suite starts with: invoke
    the endpoint, decode its response. *)
Definition request (endpoint_name body : string) : io world pyval :=
  io_bind (invoke_endpoint endpoint_name "application/json" body) decode.

Definition test_single_prediction (endpoint_name : string) : io world bool :=
  except_ClientError
    (io_bind (request endpoint_name
                      (json_dumps (PDict Sample.single_payload)))
             (fun _ => io_ret true))
    (fun _ => io_ret false).

Definition test_batch_prediction (endpoint_name : string) : io world bool :=
  except_ClientError
    (io_bind (request endpoint_name
                      (json_dumps (PDict Sample.batch_payload)))
             (fun _ => io_ret true))
    (fun _ => io_ret false).

(** The loop of [test_edge_cases] with its two counters. *)
Fixpoint edge_loop (endpoint_name : string) (cases : list (string * pyval))
         (passed failed : nat) : io world (nat * nat) :=
  match cases with
  | [] => io_ret (passed, failed)
  | test_case :: rest =>
      io_bind
        (except_ClientError
           (io_bind (request endpoint_name (json_dumps (snd test_case)))
                    (fun _ => io_ret (S passed, failed)))
           (fun _ => io_ret (passed, S failed)))
        (fun counters =>
           edge_loop endpoint_name rest (fst counters) (snd counters))
  end.

Definition test_edge_cases (endpoint_name : string) : io world bool :=
  io_bind (edge_loop endpoint_name edge_test_cases 0 0)
          (fun counters => io_ret (snd counters =? 0)%nat).

(** [body = payload if it is a str, else json.dumps(payload)]. *)
Definition body_of_payload (payload : pyval) : string :=
  match payload with
  | PStr text => text
  | _ => json_dumps payload
  end.

Fixpoint error_loop (endpoint_name : string) (tests : list (string * pyval))
  : io world unit :=
  match tests with
  | [] => io_ret tt
  | test :: rest =>
      io_bind
        (except_Exception
           (io_bind (request endpoint_name (body_of_payload (snd test)))
                    (fun _ => io_ret tt))
           (fun _ => io_ret tt)
           (fun _ => io_ret tt))
        (fun _ => error_loop endpoint_name rest)
  end.

Definition test_error_handling (endpoint_name : string) : io world bool :=
  io_bind (error_loop endpoint_name invalid_payloads)
          (fun _ => io_ret true).

Definition check_endpoint_status (endpoint_name : string) : io world bool :=
  except_ClientError
    (io_bind (describe_endpoint endpoint_name)
             (fun status => io_ret (String.eqb status "InService")))
    (fun _ => io_ret false).

(** [main] from the status check on (lines 254-285); the value is the
    argument of [sys.exit]. *)
Definition main (endpoint_name : string) : io world Z :=
  io_bind (check_endpoint_status endpoint_name) (fun ready =>
  if negb ready then io_ret 1%Z else
  io_bind (test_single_prediction endpoint_name) (fun r1 =>
  io_bind (test_batch_prediction endpoint_name) (fun r2 =>
  io_bind (test_edge_cases endpoint_name) (fun r3 =>
  io_bind (test_error_handling endpoint_name) (fun r4 =>
  let results := [r1; r2; r3; r4] in
  let total_passed := List.length (filter (fun passed => passed) results) in
  let total_tests := List.length results in
  if (total_passed =? total_tests)%nat then io_ret 0%Z else io_ret 1%Z))))).

(** An endpoint that answers every request with JSON text. *)
Definition always_answers : Prop :=
  forall (name content_type body : string) (w : world),
  exists (text : string) (v : pyval) (w' : world),
    invoke_endpoint name content_type body w = (inr text, w')
    /\ json_loads text = Some v.

(** An endpoint that rejects every request with a [ClientError]. *)
Definition always_rejects : Prop :=
  forall (name content_type body : string) (w : world),
  exists (code : string) (w' : world),
    invoke_endpoint name content_type body w = (inl (ClientError code), w').

(** An endpoint that is in service whenever it is asked. *)
Definition always_in_service : Prop :=
  forall (name : string) (w : world),
  exists w' : world, describe_endpoint name w = (inr "InService", w').

End Harness.

(** Endpoints to run the suite against: the state of the world is the
    number of calls made so far. *)
Module SampleEndpoint.

Definition in_service (name : string) : io nat string :=
  fun calls => (inr "InService", S calls).

Definition creating (name : string) : io nat string :=
  fun calls => (inr "Creating", S calls).

(** Answers every request with the same JSON text. *)
Definition answers (name content_type body : string) : io nat string :=
  fun calls => (inr "{}", S calls).

(** Answers every request with text that is not JSON. *)
Definition garbles (name content_type body : string) : io nat string :=
  fun calls => (inr "<html>", S calls).

(** Rejects every request. *)
Definition rejects (name content_type body : string) : io nat string :=
  fun calls => (inl (ClientError "ModelError"), S calls).

Definition loads : string -> option pyval :=
  Sample.loads_of [("{}", PDict [])].

End SampleEndpoint.

(** ** The dtype of an array and the elements it stores *)

(** The dtypes of arrays of booleans and numbers; [DOther] stands for the
    dtypes that are not modelled (uint64, text, object). *)
Inductive dtype : Type := DBool | DInt64 | DFloat64 | DOther.

Definition int64_range (z : Z) : bool :=
  ((- 2 ^ 63 <=? z) && (z <? 2 ^ 63))%Z.

(** The dtype numpy finds for one Python value. *)
Definition dtype_of (v : pyval) : dtype :=
  match v with
  | PBool _ => DBool
  | PInt z => if int64_range z then DInt64 else DOther
  | PFloat _ => DFloat64
  | _ => DOther
  end.

(** The common dtype of two. *)
Definition promote (a b : dtype) : dtype :=
  match a, b with
  | DOther, _ | _, DOther => DOther
  | DFloat64, _ | _, DFloat64 => DFloat64
  | DInt64, _ | _, DInt64 => DInt64
  | DBool, DBool => DBool
  end.

Fixpoint leaves (v : pyval) : list pyval :=
  match v with
  | PList xs => flat_map leaves xs
  | _ => [v]
  end.

(** The dtype of [np.array(v)]: float64 for an array without elements. *)
Definition result_dtype (v : pyval) : dtype :=
  match leaves v with
  | [] => DFloat64
  | x :: rest => fold_left promote (map dtype_of rest) (dtype_of x)
  end.

(** The float64 nearest to an integer of the int64 range, ties to the even
    significand: up to 2^53 the integer itself, beyond it 53 significant
    bits are kept. *)
Definition round_float64 (z : Z) : Z :=
  let a := Z.abs z in
  if (a <=? 2 ^ 53)%Z then z
  else
    let e := (Z.log2 a - 52)%Z in
    let q := Z.shiftr a e in
    let r := (a - Z.shiftl q e)%Z in
    let half := Z.shiftl 1 (e - 1) in
    let q' := if (half <? r)%Z || ((r =? half)%Z && Z.odd q)
              then (q + 1)%Z else q in
    (Z.sgn z * Z.shiftl q' e)%Z.

Definition Z_of_bool (b : bool) : Z := if b then 1%Z else 0%Z.

(** One element converted to the dtype of its array. *)
Definition cast (dt : dtype) (v : pyval) : option pyval :=
  match dt, v with
  | DBool, PBool _ => Some v
  | DInt64, PBool b => Some (PInt (Z_of_bool b))
  | DInt64, PInt _ => Some v
  | DFloat64, PBool b => Some (PFloat (inject_Z (Z_of_bool b)))
  | DFloat64, PInt z => Some (PFloat (inject_Z (round_float64 z)))
  | DFloat64, PFloat _ => Some v
  | _, _ => None
  end.

Section OptionAll.

Variables A B : Type.
Variable f : A -> option B.

(** [f] on every item of a list; [None] when it is [None] on one. *)
Fixpoint option_all (ys : list A) : option (list B) :=
  match ys with
  | [] => Some []
  | y :: rest =>
      match f y, option_all rest with
      | Some y', Some rest' => Some (y' :: rest')
      | _, _ => None
      end
  end.

End OptionAll.

Fixpoint astype (dt : dtype) (v : pyval) : option pyval :=
  match v with
  | PList xs => option_map PList (option_all (astype dt) xs)
  | _ => cast dt v
  end.

(** [a.tolist()]: the elements the array stores, in the nesting of the
    array; [None] for an array of a dtype that is not modelled. *)
Definition tolist (a : ndarray) : option pyval :=
  astype (result_dtype (nd_items a)) (nd_items a).

(** The rows of [a.tolist()]. *)
Definition value_rows (a : ndarray) : option (list pyval) :=
  match tolist a with
  | Some (PList rows) => Some rows
  | _ => None
  end.

(** The number a Python value denotes. *)
Definition Qvalue (v : pyval) : option Q :=
  match v with
  | PInt z => Some (inject_Z z)
  | PFloat q => Some q
  | _ => None
  end.

(** A number that every numeric dtype holds exactly: a float, or an
    integer of magnitude at most 2^53. *)
Definition exact_number (v : pyval) : bool :=
  match v with
  | PInt z => (Z.abs z <=? 2 ^ 53)%Z
  | PFloat _ => true
  | _ => false
  end.

(** A contact whose three fields, where given, hold such numbers. *)
Definition exact_contact (c : pydict) : bool :=
  forallb exact_number (row_of c).

(** The dtype [dt] can hold the number [v]. *)
Definition fits (dt : dtype) (v : pyval) : Prop :=
  dt = DFloat64 \/ (dt = DInt64 /\ dtype_of v = DInt64).

(** Two values that denote the same number. *)
Definition same_number (v v' : pyval) : Prop := Qvalue v' = Qvalue v.

(** ** Shapes *)

Lemma is_number_scalar v : is_number v = true -> is_scalar v = true.
Proof. destruct v; simpl; congruence. Qed.

Lemma shape_of_scalar v : is_scalar v = true -> shape_of v = Some [].
Proof. destruct v; simpl; congruence. Qed.

Lemma shape_eqb_refl s : shape_eqb (Some s) (Some s) = true.
Proof. unfold shape_eqb. destruct (list_eq_dec Nat.eq_dec s s); congruence. Qed.

Lemma shape_of_uniform (s : list nat) (x : pyval) (rest : list pyval) :
  Forall (fun y => shape_of y = Some s) (x :: rest) ->
  shape_of (PList (x :: rest)) = Some (S (List.length rest) :: s).
Proof.
  intros H. inversion H as [| ? ? Hx Hrest]; subst.
  simpl. rewrite Hx.
  assert (Hall : forallb (fun y => shape_eqb (shape_of y) (Some s)) rest = true).
  { apply forallb_forall. intros y Hy.
    rewrite Forall_forall in Hrest. rewrite (Hrest y Hy).
    apply shape_eqb_refl. }
  rewrite Hall. reflexivity.
Qed.

Lemma shape_of_flat (xs : list pyval) :
  forallb is_scalar xs = true ->
  shape_of (PList xs) = Some [List.length xs].
Proof.
  destruct xs as [| x rest]; [reflexivity |].
  intros H. apply shape_of_uniform.
  apply Forall_forall. intros y Hy.
  apply shape_of_scalar.
  rewrite forallb_forall in H. auto.
Qed.

Lemma np_array_ok (v : pyval) (s : list nat) :
  shape_of v = Some s -> (List.length s <= NPY_MAXDIMS)%nat ->
  np_array v = inr (mk_ndarray s v).
Proof.
  intros Hs Hlen. unfold np_array. rewrite Hs.
  apply Nat.leb_le in Hlen. rewrite Hlen. reflexivity.
Qed.

Lemma np_array_single (f : pyval) (s : list nat) :
  shape_of f = Some s -> (List.length s < NPY_MAXDIMS)%nat ->
  np_array (PList [f]) = inr (mk_ndarray (1%nat :: s) (PList [f])).
Proof.
  intros Hs Hlen. apply np_array_ok.
  - simpl. rewrite Hs. reflexivity.
  - simpl. unfold NPY_MAXDIMS in *. lia.
Qed.

Lemma np_array_batch (cs : list pydict) :
  forallb scalar_contact cs = true ->
  np_array (PList (map (fun c => PList (row_of c)) cs))
  = inr (mk_ndarray (batch_shape (List.length cs))
                    (PList (map (fun c => PList (row_of c)) cs))).
Proof.
  intros H. destruct cs as [| c rest]; [reflexivity |].
  apply np_array_ok.
  - simpl map. rewrite (@shape_of_uniform [3%nat]).
    + rewrite length_map. reflexivity.
    + apply Forall_forall. intros y Hy.
      change (PList (row_of c) :: map (fun c0 => PList (row_of c0)) rest)
        with (map (fun c0 => PList (row_of c0)) (c :: rest)) in Hy.
      apply in_map_iff in Hy. destruct Hy as [c' [<- Hin]].
      rewrite forallb_forall in H.
      apply (shape_of_flat (row_of c')). apply (H c' Hin).
  - simpl. unfold NPY_MAXDIMS. lia.
Qed.

(** ** The contact loop *)

Lemma contact_row_dict (c : pydict) :
  contact_row (PDict c) = inr (PList (row_of c)).
Proof.
  unfold contact_row, row_of, field, py_get.
  destruct (dict_get "day_of_week" c);
    destruct (dict_get "hour_of_day" c);
    destruct (dict_get "previous_answer_rate" c); reflexivity.
Qed.

Lemma contact_row_error (v : pyval) (e : exception) :
  contact_row v = inl e -> e = AttributeError.
Proof.
  destruct v as [| | | | | | c];
    [ intros H; cbv in H; congruence ..
    | rewrite contact_row_dict; discriminate ].
Qed.

Lemma contacts_loop_dicts (cs : list pydict) :
  forall features,
    contacts_loop features (map PDict cs)
    = inr (features ++ map (fun c => PList (row_of c)) cs)%list.
Proof.
  induction cs as [| c rest IH]; intros features; simpl.
  - rewrite app_nil_r. reflexivity.
  - rewrite contact_row_dict. simpl. rewrite IH.
    rewrite <- app_assoc. reflexivity.
Qed.

Lemma contacts_loop_error (cs features : list pyval) (e : exception) :
  contacts_loop features cs = inl e -> e = AttributeError.
Proof.
  revert features. induction cs as [| c rest IH]; intros features; simpl.
  - discriminate.
  - destruct (contact_row c) as [e' | row] eqn:Hrow; simpl.
    + intros H. injection H as <-. eapply contact_row_error; eauto.
    + apply IH.
Qed.

(** ** [normalize] on a mapping *)

Lemma normalize_features (d : pydict) (f : pyval) :
  dict_get "features" d = Some f ->
  normalize (PDict d) = np_array (PList [f]).
Proof.
  intros H. unfold normalize, py_contains, py_getitem, dict_mem.
  rewrite H. reflexivity.
Qed.

Lemma normalize_contacts (d : pydict) (cs : list pydict) :
  dict_mem "features" d = false ->
  dict_get "contacts" d = Some (PList (map PDict cs)) ->
  normalize (PDict d) = np_array (PList (map (fun c => PList (row_of c)) cs)).
Proof.
  intros Hf Hc. unfold normalize, py_contains, py_getitem.
  simpl. rewrite Hf. unfold dict_mem. rewrite Hc. simpl.
  rewrite contacts_loop_dicts. reflexivity.
Qed.

Lemma normalize_neither (d : pydict) :
  dict_mem "features" d = false ->
  dict_mem "contacts" d = false ->
  normalize (PDict d) = inl validation_error.
Proof.
  intros Hf Hc. unfold normalize, py_contains. simpl.
  rewrite Hf, Hc. reflexivity.
Qed.

Lemma np_array_rows (v : pyval) (m : ndarray) :
  np_array v = inr m -> nd_items m = v.
Proof.
  unfold np_array. destruct (shape_of v) as [s |]; [| discriminate].
  destruct (List.length s <=? NPY_MAXDIMS)%nat; [| discriminate].
  intros H. injection H as <-. reflexivity.
Qed.

Lemma shape_of_list_head (rows : list pyval) (s : list nat) :
  shape_of (PList rows) = Some s -> hd 0%nat s = List.length rows.
Proof.
  destruct rows as [| x rest]; simpl.
  - intros H. injection H as <-. reflexivity.
  - destruct (shape_of x) as [t |]; [| discriminate].
    destruct (forallb (fun y => shape_eqb (shape_of y) (Some t)) rest);
      [| discriminate].
    intros H. injection H as <-. reflexivity.
Qed.

Lemma np_array_len (rows : list pyval) (m : ndarray) :
  np_array (PList rows) = inr m -> nd_len m = List.length rows.
Proof.
  unfold np_array.
  destruct (shape_of (PList rows)) as [s |] eqn:Hs; [| discriminate].
  destruct (List.length s <=? NPY_MAXDIMS)%nat; [| discriminate].
  intros H. injection H as <-.
  apply shape_of_list_head. assumption.
Qed.

Lemma np_array_error (v : pyval) (e : exception) :
  np_array v = inl e -> e = ValueError inhomogeneous.
Proof.
  unfold np_array. destruct (shape_of v) as [s |].
  - destruct (List.length s <=? NPY_MAXDIMS)%nat; [discriminate |].
    intros H. injection H as <-. reflexivity.
  - intros H. injection H as <-. reflexivity.
Qed.

Lemma py_contains_error (k : string) (v : pyval) (e : exception) :
  py_contains k v = inl e -> e = TypeError.
Proof. destruct v; simpl; unfold raise, ret; congruence. Qed.

Lemma py_getitem_error (v : pyval) (k : string) (e : exception) :
  py_getitem v k = inl e -> e = TypeError \/ e = KeyError.
Proof.
  destruct v; simpl; unfold raise, ret;
    try (intros H; injection H as <-; auto).
  destruct (dict_get k bindings); [discriminate |].
  intros H; injection H as <-; auto.
Qed.

Lemma py_iter_error (v : pyval) (e : exception) :
  py_iter v = inl e -> e = TypeError.
Proof. destruct v; simpl; unfold raise, ret; congruence. Qed.

(** Every way [normalize] can fail; the error of line 120 is raised only
    past both membership tests. *)
Lemma normalize_error_cases (v : pyval) (e : exception) :
  normalize v = inl e ->
  e = TypeError \/ e = KeyError \/ e = AttributeError
  \/ e = ValueError inhomogeneous
  \/ (e = validation_error
      /\ py_contains "features" v = inr false
      /\ py_contains "contacts" v = inr false).
Proof.
  unfold normalize.
  destruct (py_contains "features" v) as [e1 | [|]] eqn:Hf; simpl.
  - intros H; injection H as <-. left. eapply py_contains_error; eauto.
  - destruct (py_getitem v "features") as [e2 | f] eqn:Hg; simpl.
    + intros H; injection H as <-.
      destruct (py_getitem_error _ _ Hg); auto.
    + intros H. apply np_array_error in H. auto.
  - destruct (py_contains "contacts" v) as [e1 | [|]] eqn:Hc; simpl.
    + intros H; injection H as <-. left. eapply py_contains_error; eauto.
    + destruct (py_getitem v "contacts") as [e2 | cs] eqn:Hg; simpl.
      * intros H; injection H as <-.
        destruct (py_getitem_error _ _ Hg); auto.
      * destruct (py_iter cs) as [e3 | items] eqn:Hi; simpl.
        { intros H; injection H as <-. left. eapply py_iter_error; eauto. }
        destruct (contacts_loop [] items) as [e4 | rows] eqn:Hl; simpl.
        { intros H; injection H as <-.
          right; right; left. eapply contacts_loop_error; eauto. }
        intros H. apply np_array_error in H. auto.
    + intros H; injection H as <-. right; right; right; right. auto.
Qed.

Lemma normalize_validation_iff (d : pydict) :
  normalize (PDict d) = inl validation_error
  <-> dict_mem "features" d = false /\ dict_mem "contacts" d = false.
Proof.
  split.
  - intros H. apply normalize_error_cases in H.
    destruct H as [H | [H | [H | [H | [_ [Hf Hc]]]]]]; try discriminate.
    simpl in Hf, Hc. unfold ret in *. split; congruence.
  - intros [Hf Hc]. apply normalize_neither; assumption.
Qed.

Lemma input_fn_json (json_loads : string -> option pyval) (body : string)
      (v : pyval) :
  json_loads body = Some v ->
  input_fn json_loads body application_json = normalize v.
Proof. intros H. unfold input_fn. simpl. rewrite H. reflexivity. Qed.

(** ** The stored elements of an array of numbers *)

Lemma round_float64_exact (z : Z) :
  (Z.abs z <=? 2 ^ 53)%Z = true -> round_float64 z = z.
Proof. intros H. unfold round_float64. cbv zeta. rewrite H. reflexivity. Qed.

Lemma exact_int64_range (z : Z) :
  (Z.abs z <=? 2 ^ 53)%Z = true -> int64_range z = true.
Proof.
  intros H. apply Z.leb_le in H. unfold int64_range.
  apply andb_true_iff. split; [apply Z.leb_le | apply Z.ltb_lt]; lia.
Qed.

Lemma exact_number_dtype (v : pyval) :
  exact_number v = true -> dtype_of v = DInt64 \/ dtype_of v = DFloat64.
Proof.
  destruct v; simpl; try discriminate; auto.
  intros H. rewrite (@exact_int64_range _ H). auto.
Qed.

Lemma exact_number_scalar (v : pyval) :
  exact_number v = true -> is_scalar v = true.
Proof. destruct v; simpl; congruence. Qed.

Lemma fold_promote_numeric (ds : list dtype) :
  forall d0,
    (d0 = DInt64 \/ d0 = DFloat64) ->
    Forall (fun d => d = DInt64 \/ d = DFloat64) ds ->
    fold_left promote ds d0 = DFloat64
    \/ (fold_left promote ds d0 = DInt64
        /\ d0 = DInt64 /\ Forall (fun d => d = DInt64) ds).
Proof.
  induction ds as [| d rest IH]; intros d0 Hd0 Hds; simpl.
  - destruct Hd0 as [-> | ->]; auto.
  - inversion Hds as [| ? ? Hd Hrest]; subst.
    assert (Hp : promote d0 d = DInt64 \/ promote d0 d = DFloat64).
    { destruct Hd0 as [-> | ->], Hd as [-> | ->]; simpl; auto. }
    destruct (IH (promote d0 d) Hp Hrest) as [H | [H [Hpd Hall]]].
    + left. exact H.
    + right. split; [exact H |].
      destruct Hd0 as [-> | ->], Hd as [-> | ->]; simpl in Hpd;
        try discriminate.
      split; [reflexivity | constructor; [reflexivity | exact Hall]].
Qed.

(** The dtype of an array of exact numbers holds each of them. *)
Lemma result_dtype_fits (xs : list pyval) (x : pyval) :
  Forall (fun e => exact_number e = true) xs ->
  In x xs ->
  fits (match xs with
        | [] => DFloat64
        | y :: rest => fold_left promote (map dtype_of rest) (dtype_of y)
        end) x.
Proof.
  intros Hall Hin. destruct xs as [| y rest]; [contradiction |].
  inversion Hall as [| ? ? Hy Hrest]; subst.
  assert (Hds : Forall (fun d => d = DInt64 \/ d = DFloat64)
                       (map dtype_of rest)).
  { apply Forall_forall. intros d Hd. apply in_map_iff in Hd.
    destruct Hd as [e [<- He]]. apply exact_number_dtype.
    rewrite Forall_forall in Hrest. auto. }
  destruct (@fold_promote_numeric _ _ (@exact_number_dtype _ Hy) Hds)
    as [H | [H [Hy0 Hall0]]]; rewrite H.
  - left. reflexivity.
  - right. split; [reflexivity |].
    destruct Hin as [<- | Hin]; [exact Hy0 |].
    rewrite Forall_forall in Hall0. apply Hall0.
    apply in_map. exact Hin.
Qed.

Lemma cast_exact (dt : dtype) (v : pyval) :
  exact_number v = true -> fits dt v ->
  exists v', astype dt v = Some v' /\ same_number v v'.
Proof.
  unfold fits, same_number.
  destruct v; simpl; try discriminate; intros Hex Hfit.
  - destruct Hfit as [-> | [-> _]]; simpl.
    + eexists. split; [reflexivity |]. simpl.
      rewrite (@round_float64_exact _ Hex). reflexivity.
    + eexists. split; reflexivity.
  - destruct Hfit as [-> | [_ Hd]]; [| discriminate Hd].
    eexists. split; reflexivity.
Qed.

Lemma astype_row (dt : dtype) (row : list pyval) :
  Forall (fun e => exact_number e = true /\ fits dt e) row ->
  exists row',
    option_all (astype dt) row = Some row'
    /\ Forall2 same_number row row'.
Proof.
  induction 1 as [| e rest [Hex Hfit] _ IH].
  - exists []. split; [reflexivity | constructor].
  - destruct IH as [rest' [Hrest HR]].
    destruct (@cast_exact dt e Hex Hfit) as [e' [He HQ]].
    exists (e' :: rest'). split.
    + simpl. rewrite He, Hrest. reflexivity.
    + constructor; assumption.
Qed.

Lemma astype_rows (dt : dtype) (rows : list (list pyval)) :
  Forall (Forall (fun e => exact_number e = true /\ fits dt e)) rows ->
  exists rows',
    astype dt (PList (map PList rows)) = Some (PList (map PList rows'))
    /\ Forall2 (Forall2 same_number) rows rows'.
Proof.
  intros H.
  assert (Hall : exists rows',
             option_all (astype dt) (map PList rows)
             = Some (map PList rows')
             /\ Forall2 (Forall2 same_number) rows rows').
  { induction H as [| row rest Hrow _ IH].
    - exists []. split; [reflexivity | constructor].
    - destruct IH as [rest' [Hrest HR]].
      destruct (@astype_row dt row Hrow) as [row' [Hr HQ]].
      exists (row' :: rest'). split.
      + simpl. simpl in Hr. rewrite Hr. simpl.
        simpl in Hrest. rewrite Hrest. reflexivity.
      + constructor; assumption. }
  destruct Hall as [rows' [Hopt HR]].
  exists rows'. split; [| exact HR].
  simpl. simpl in Hopt. rewrite Hopt. reflexivity.
Qed.

Lemma leaves_rows (rows : list (list pyval)) :
  Forall (Forall (fun e => is_scalar e = true)) rows ->
  leaves (PList (map PList rows)) = List.concat rows.
Proof.
  intros H. simpl. induction H as [| row rest Hrow _ IH];
    [reflexivity |].
  simpl. rewrite IH. f_equal.
  clear IH. induction Hrow as [| e es He _ IHe]; [reflexivity |].
  simpl. simpl in IHe. rewrite IHe.
  destruct e; try discriminate He; reflexivity.
Qed.

(** What an array built from rows of exact numbers stores: row for row and
    element for element the same numbers. *)
Lemma tolist_exact_rows (shape : list nat) (rows : list (list pyval)) :
  Forall (Forall (fun e => exact_number e = true)) rows ->
  exists rows',
    tolist (mk_ndarray shape (PList (map PList rows)))
    = Some (PList (map PList rows'))
    /\ Forall2 (Forall2 same_number) rows rows'.
Proof.
  intros H. unfold tolist. cbn [nd_items].
  apply astype_rows.
  assert (Hleaves : leaves (PList (map PList rows)) = List.concat rows).
  { apply leaves_rows.
    eapply Forall_impl; [| exact H]. intros row Hrow.
    eapply Forall_impl; [| exact Hrow].
    intros e He. apply exact_number_scalar. exact He. }
  assert (Hflat : Forall (fun e => exact_number e = true) (List.concat rows)).
  { apply Forall_concat. exact H. }
  unfold result_dtype. rewrite Hleaves.
  apply Forall_forall. intros row Hrow.
  apply Forall_forall. intros e He.
  split.
  - rewrite Forall_forall in H. specialize (H row Hrow).
    rewrite Forall_forall in H. auto.
  - apply result_dtype_fits; [exact Hflat |].
    apply in_concat. exists row. auto.
Qed.

Lemma Forall2_nth_error (A B : Type) (R : A -> B -> Prop)
      (xs : list A) (ys : list B) (i : nat) (x : A) :
  Forall2 R xs ys -> nth_error xs i = Some x ->
  exists y, nth_error ys i = Some y /\ R x y.
Proof.
  intros H. revert i. induction H as [| a b xs' ys' Hab _ IH];
    intros [| i] Hi; simpl in *; try discriminate.
  - injection Hi as <-. exists b. auto.
  - apply IH. exact Hi.
Qed.

(** * Properties of the input normaliser *)

(** C1, as the code has it.  A decoded mapping that binds ['features'] to
    three numbers, each a float or an integer of magnitude at most 2^53,
    is normalised by [input_fn] (content type ['application/json']) to an
    array of shape (1, 3): exactly one row, whose elements are, in the
    same order, numbers equal in value to the given ones. *)
Theorem single_payload_row_values
        (json_loads : string -> option pyval) (body : string) (d : pydict)
        (a b c : pyval) :
  json_loads body = Some (PDict d) ->
  dict_get "features" d = Some (PList [a; b; c]) ->
  exact_number a = true -> exact_number b = true -> exact_number c = true ->
  exists (m : ndarray) (a' b' c' : pyval),
    input_fn json_loads body application_json = inr m
    /\ nd_shape m = [1%nat; 3%nat]
    /\ nd_len m = 1%nat
    /\ value_rows m = Some [PList [a'; b'; c']]
    /\ Qvalue a' = Qvalue a
    /\ Qvalue b' = Qvalue b
    /\ Qvalue c' = Qvalue c.
Proof.
  intros Hbody Hfeat Ha Hb Hc.
  assert (Hrows : Forall (Forall (fun e => exact_number e = true))
                         [[a; b; c]]).
  { repeat constructor; assumption. }
  destruct (tolist_exact_rows [1%nat; 3%nat] Hrows) as [rows' [Hto HR]].
  inversion HR as [| r r' rs rs' Hr Hrs]; subst.
  inversion Hrs; subst.
  inversion Hr as [| x a' xs xs' Hxa Hr1]; subst.
  inversion Hr1 as [| y b' ys ys' Hyb Hr2]; subst.
  inversion Hr2 as [| z c' zs zs' Hzc Hr3]; subst.
  inversion Hr3; subst.
  exists (mk_ndarray [1%nat; 3%nat] (PList [PList [a; b; c]])), a', b', c'.
  split; [| split; [| split; [| split; [| split; [| split]]]]];
    try reflexivity; try assumption.
  - rewrite (input_fn_json _ _ Hbody), (normalize_features _ Hfeat).
    apply (@np_array_single (PList [a; b; c]) [3%nat]).
    + apply (shape_of_flat [a; b; c]). simpl.
      rewrite !exact_number_scalar by assumption. reflexivity.
    + unfold NPY_MAXDIMS. simpl. lia.
  - unfold value_rows. simpl map in Hto. rewrite Hto. reflexivity.
Qed.

(** C1 fails on the code: next to a float, the integer 2^53 + 1 of a
    ['features'] triple is stored as the float 2^53, so the row does not
    equal the given triple element for element. *)
Lemma large_integer_rounded :
  is_number (PInt 9007199254740993) = true
  /\ is_number (PInt 1) = true
  /\ is_number (PFloat (1 # 2)) = true
  /\ (exists m : ndarray,
         normalize
           (PDict [("features",
                    PList [PInt 9007199254740993; PInt 1; PFloat (1 # 2)])])
         = inr m
         /\ value_rows m
            = Some [PList [PFloat 9007199254740992; PFloat 1;
                           PFloat (1 # 2)]])
  /\ Qvalue (PFloat 9007199254740992) <> Qvalue (PInt 9007199254740993).
Proof.
  repeat split.
  - eexists. split; reflexivity.
  - discriminate.
Qed.

(** C2.  For a decoded mapping without ['features'] that binds
    ['contacts'] to a sequence of mappings: when the fields of the contacts
    hold elements (no nested lists), [input_fn] returns an array; and the
    array it returns has as many rows as there are contacts, the row at
    index [i] being the row built from the contact at index [i]. *)
Theorem batch_rows_follow_contacts
        (json_loads : string -> option pyval) (body : string) (d : pydict)
        (cs : list pydict) :
  json_loads body = Some (PDict d) ->
  dict_mem "features" d = false ->
  dict_get "contacts" d = Some (PList (map PDict cs)) ->
  (forallb scalar_contact cs = true ->
   exists m : ndarray, input_fn json_loads body application_json = inr m)
  /\ forall m : ndarray,
      input_fn json_loads body application_json = inr m ->
      nd_len m = List.length cs
      /\ List.length (nd_rows m) = List.length cs
      /\ forall (i : nat) (c : pydict),
          nth_error cs i = Some c ->
          exists row : pyval,
            nth_error (nd_rows m) i = Some row
            /\ contact_row (PDict c) = inr row.
Proof.
  intros Hbody Hf Hc.
  rewrite (input_fn_json _ _ Hbody), (normalize_contacts _ _ Hf Hc).
  split.
  - intros Hscalar. eexists. apply np_array_batch. assumption.
  - intros m Hm.
    pose proof (np_array_len _ Hm) as Hlen.
    pose proof (np_array_rows _ Hm) as Hrows.
    rewrite length_map in Hlen.
    unfold nd_rows. rewrite Hrows.
    split; [exact Hlen | split; [apply length_map |]].
    intros i c Hi. exists (PList (row_of c)). split.
    + apply map_nth_error with (f := fun c0 => PList (row_of c0)).
      assumption.
    + apply contact_row_dict.
Qed.

(** C3, as the code has it.  In the array [normalize] returns for a batch
    whose contacts give, under the three feature keys, floats or integers
    of magnitude at most 2^53, the row of a contact holds, in the order
    [day_of_week], [hour_of_day], [previous_answer_rate], numbers equal in
    value to what the contact binds to the key, and to 0, 12 and 0.5 where
    it does not bind it.  The empty contact gives the row
    (0.0, 12.0, 0.5). *)
Theorem contact_row_values
        (d : pydict) (cs : list pydict) (m : ndarray) (i : nat) (c : pydict) :
  dict_mem "features" d = false ->
  dict_get "contacts" d = Some (PList (map PDict cs)) ->
  forallb exact_contact cs = true ->
  normalize (PDict d) = inr m ->
  nth_error cs i = Some c ->
  (exists (rows : list pyval) (dv hv rv : pyval),
      value_rows m = Some rows
      /\ nth_error rows i = Some (PList [dv; hv; rv])
      /\ (forall x, dict_get "day_of_week" c = Some x
                    -> Qvalue dv = Qvalue x)
      /\ (dict_get "day_of_week" c = None -> Qvalue dv = Some 0)
      /\ (forall x, dict_get "hour_of_day" c = Some x
                    -> Qvalue hv = Qvalue x)
      /\ (dict_get "hour_of_day" c = None -> Qvalue hv = Some 12)
      /\ (forall x, dict_get "previous_answer_rate" c = Some x
                    -> Qvalue rv = Qvalue x)
      /\ (dict_get "previous_answer_rate" c = None
          -> Qvalue rv = Some (1 # 2)))
  /\ (exists m0 : ndarray,
         normalize (PDict [("contacts", PList [PDict []])]) = inr m0
         /\ value_rows m0
            = Some [PList [PFloat 0; PFloat 12; PFloat (1 # 2)]]).
Proof.
  intros Hf Hc Hexact Hm Hi.
  split; [| eexists; split; reflexivity].
  rewrite (normalize_contacts _ _ Hf Hc) in Hm.
  pose proof (np_array_rows _ Hm) as Hitems.
  assert (Hrows : Forall (Forall (fun e => exact_number e = true))
                         (map row_of cs)).
  { apply Forall_forall. intros row Hrow. apply in_map_iff in Hrow.
    destruct Hrow as [c0 [<- Hc0]].
    rewrite forallb_forall in Hexact. specialize (Hexact c0 Hc0).
    unfold exact_contact in Hexact.
    apply Forall_forall. rewrite forallb_forall in Hexact. exact Hexact. }
  destruct (tolist_exact_rows (nd_shape m) Hrows) as [rows' [Hto HR]].
  rewrite map_map in Hto.
  assert (Hval : value_rows m = Some (map PList rows')).
  { unfold value_rows, tolist. unfold tolist in Hto. cbn [nd_items] in Hto.
    rewrite Hitems, Hto. reflexivity. }
  assert (Hrow : nth_error (map row_of cs) i = Some (row_of c)).
  { apply map_nth_error. exact Hi. }
  destruct (Forall2_nth_error i HR Hrow) as [row' [Hrow' Hsame]].
  unfold row_of in Hsame.
  inversion Hsame as [| x dv xs xs' Hd Hs1]; subst.
  inversion Hs1 as [| y hv ys ys' Hh Hs2]; subst.
  inversion Hs2 as [| z rv zs zs' Hr Hs3]; subst.
  inversion Hs3; subst.
  exists (map PList rows'), dv, hv, rv.
  split; [exact Hval |].
  split; [apply map_nth_error with (f := PList); exact Hrow' |].
  unfold same_number, field in Hd, Hh, Hr.
  repeat split; intros;
    match goal with
    | H : dict_get ?k c = _, E : Qvalue _ = Qvalue match dict_get ?k c with
                                                    | Some _ => _
                                                    | None => _
                                                    end |- _ =>
        rewrite H in E; exact E
    end.
Qed.

(** C3 fails on the code: a contact that binds [day_of_week] to the
    integer 2^53 + 1 gets the row (2^53, 12.0, 0.5); the value it gave is
    not passed through unchanged. *)
Lemma contact_value_rounded :
  exists m : ndarray,
    normalize
      (PDict [("contacts",
               PList [PDict [("day_of_week", PInt 9007199254740993)]])])
    = inr m
    /\ value_rows m
       = Some [PList [PFloat 9007199254740992; PFloat 12; PFloat (1 # 2)]]
    /\ Qvalue (PFloat 9007199254740992) <> Qvalue (PInt 9007199254740993).
Proof.
  eexists. split; [reflexivity | split; [reflexivity | discriminate]].
Qed.

(** C5, as the code has it.  On a decoded payload, [input_fn] raises the
    error of line 120 exactly when the payload is a mapping that binds
    neither ['features'] nor ['contacts'], or a list or a string in which
    [in] finds neither; on a decoded number, boolean or [None] the
    membership test raises [TypeError] instead.  On a body that
    [json.loads] rejects [input_fn] raises [JSONDecodeError]; the two
    exceptions differ, also in their class, and a handler tells them apart
    with [isinstance(e, JSONDecodeError)].  The mapping
    [{'data': [1, 2, 3]}] gets the former. *)
Theorem validation_error_exactly
        (json_loads : string -> option pyval) (good bad : string)
        (v : pyval) :
  json_loads good = Some v ->
  json_loads bad = None ->
  (input_fn json_loads good application_json = inl validation_error
   <-> (exists d, v = PDict d
                  /\ dict_mem "features" d = false
                  /\ dict_mem "contacts" d = false)
       \/ (exists xs, v = PList xs
                      /\ existsb (is_str "features") xs = false
                      /\ existsb (is_str "contacts") xs = false)
       \/ (exists s, v = PStr s
                     /\ is_substring "features" s = false
                     /\ is_substring "contacts" s = false))
  /\ (is_iterable v = false ->
      input_fn json_loads good application_json = inl TypeError)
  /\ input_fn json_loads bad application_json = inl JSONDecodeError
  /\ JSONDecodeError <> validation_error
  /\ class_of JSONDecodeError <> class_of validation_error
  /\ isinstance JSONDecodeError CJSONDecodeError = true
  /\ isinstance validation_error CJSONDecodeError = false
  /\ normalize (PDict [("data", PList [PInt 1; PInt 2; PInt 3])])
     = inl validation_error.
Proof.
  intros Hgood Hbad. rewrite (input_fn_json _ _ Hgood).
  split; [| split; [| split; [| repeat split]]].
  - split.
    + intros H. apply normalize_error_cases in H.
      destruct H as [H | [H | [H | [H | [_ [Hf Hc]]]]]]; try discriminate.
      destruct v as [| b | z | q | s | xs | d]; simpl in Hf, Hc;
        unfold raise, ret in Hf, Hc; try discriminate.
      * right. right. exists s. split; [reflexivity | split; congruence].
      * right. left. exists xs. split; [reflexivity | split; congruence].
      * left. exists d. split; [reflexivity | split; congruence].
    + intros [[d [-> [Hf Hc]]] | [[xs [-> [Hf Hc]]] | [s [-> [Hf Hc]]]]].
      * apply normalize_neither; assumption.
      * unfold normalize, py_contains, bind, ret. rewrite Hf, Hc.
        reflexivity.
      * unfold normalize, py_contains, bind, ret. rewrite Hf, Hc.
        reflexivity.
  - intros Hit. destruct v; try discriminate Hit; reflexivity.
  - unfold input_fn. simpl. rewrite Hbad. reflexivity.
  - discriminate.
  - discriminate.
Qed.

(** C5 fails on the code: the body [5] is decoded, and the decoded number
    binds neither key, yet the error is the [TypeError] of the membership
    test and not the error of line 120. *)
Lemma parsed_number_raises_type_error :
  Sample.loads_of [("5", PInt 5)] "5" = Some (PInt 5)
  /\ input_fn (Sample.loads_of [("5", PInt 5)]) "5" application_json
     = inl TypeError
  /\ input_fn (Sample.loads_of [("5", PInt 5)]) "5" application_json
     <> inl validation_error.
Proof. repeat split. discriminate. Qed.

(** C6, as the code has it.  A ['features'] value that is not a list (a
    number, a string, a boolean, [None] or a mapping) is not rejected:
    [np.array] wraps it, and [input_fn] returns the one-dimensional array
    of length 1 that holds it. *)
Theorem scalar_features_wrapped
        (json_loads : string -> option pyval) (body : string) (d : pydict)
        (f : pyval) :
  json_loads body = Some (PDict d) ->
  dict_get "features" d = Some f ->
  is_scalar f = true ->
  input_fn json_loads body application_json
  = inr (mk_ndarray [1%nat] (PList [f])).
Proof.
  intros Hbody Hfeat Hscalar.
  rewrite (input_fn_json _ _ Hbody), (normalize_features _ Hfeat).
  apply (@np_array_single f []).
  - apply shape_of_scalar. assumption.
  - unfold NPY_MAXDIMS. simpl. lia.
Qed.

(** C6 fails on the code: the payload [{'features': 5}] has a value that is
    not a sequence under ['features'], and [normalize] returns an array for
    it instead of raising. *)
Lemma scalar_features_not_rejected :
  is_scalar (PInt 5) = true
  /\ normalize (PDict [("features", PInt 5)])
     = inr (mk_ndarray [1%nat] (PList [PInt 5]))
  /\ normalize (PDict [("features", PInt 5)]) <> inl validation_error.
Proof. repeat split. discriminate. Qed.

(** C10.  A decoded mapping that binds both ['features'] and ['contacts']
    is handled by the first branch: the outcome is [np.array([features])],
    the one-row array of the ['features'] value whenever that value is a
    regular nest, and it is the same for every mapping with this
    ['features'] value, whatever ['contacts'] holds. *)
Theorem features_take_precedence (d : pydict) (f cs : pyval) :
  dict_get "features" d = Some f ->
  dict_get "contacts" d = Some cs ->
  normalize (PDict d) = np_array (PList [f])
  /\ (forall d' : pydict,
         dict_get "features" d' = Some f ->
         normalize (PDict d') = normalize (PDict d))
  /\ (forall s : list nat,
         shape_of f = Some s -> (List.length s < NPY_MAXDIMS)%nat ->
         exists m : ndarray,
           normalize (PDict d) = inr m
           /\ nd_len m = 1%nat /\ nd_rows m = [f]).
Proof.
  intros Hf _. split; [| split].
  - apply normalize_features. assumption.
  - intros d' Hf'.
    rewrite (normalize_features _ Hf'), (normalize_features _ Hf).
    reflexivity.
  - intros s Hs Hlen. exists (mk_ndarray (1%nat :: s) (PList [f])).
    split; [| split; reflexivity].
    rewrite (normalize_features _ Hf). apply np_array_single; assumption.
Qed.

(** * Properties of the prediction formatter *)

(** ** The builtin [max] *)

Lemma Qgtb_true (a b : Q) : Qgtb a b = true -> b < a.
Proof.
  unfold Qgtb. intros H. apply negb_true_iff in H.
  apply Qnot_le_lt. intros Hle. apply Qle_bool_iff in Hle. congruence.
Qed.

Lemma Qgtb_false (a b : Q) : Qgtb a b = false -> a <= b.
Proof.
  unfold Qgtb. intros H. apply negb_false_iff in H.
  apply Qle_bool_iff. assumption.
Qed.

Lemma max_loop_in (items : list Q) :
  forall max_item, In (max_loop max_item items) (max_item :: items).
Proof.
  induction items as [| item rest IH]; intros max_item; simpl.
  - left. reflexivity.
  - destruct (IH (if Qgtb item max_item then item else max_item)) as [H | H].
    + destruct (Qgtb item max_item); rewrite <- H; auto.
    + right. right. assumption.
Qed.

Lemma max_loop_lower (items : list Q) :
  forall max_item, max_item <= max_loop max_item items.
Proof.
  induction items as [| item rest IH]; intros max_item; simpl.
  - apply Qle_refl.
  - destruct (Qgtb item max_item) eqn:Hcmp.
    + apply Qle_trans with item; [| apply IH].
      apply Qlt_le_weak, Qgtb_true. assumption.
    + apply IH.
Qed.

Lemma max_loop_upper (items : list Q) :
  forall max_item x, In x (max_item :: items) -> x <= max_loop max_item items.
Proof.
  induction items as [| item rest IH]; intros max_item x Hin.
  - destruct Hin as [<- | []]. apply Qle_refl.
  - destruct Hin as [<- | [<- | Hin]].
    + apply max_loop_lower.
    + simpl. destruct (Qgtb item max_item) eqn:Hcmp.
      * apply max_loop_lower.
      * apply Qle_trans with max_item; [| apply max_loop_lower].
        apply Qgtb_false. assumption.
    + simpl. apply IH. right. assumption.
Qed.

Lemma py_max_spec (row : list Q) (c : Q) :
  py_max row = inr c -> In c row /\ forall x, In x row -> x <= c.
Proof.
  destruct row as [| first rest]; [discriminate |].
  intros H. injection H as <-. split.
  - apply max_loop_in.
  - apply max_loop_upper.
Qed.

Lemma py_max_nonempty (row : list Q) :
  row <> [] -> exists c, py_max row = inr c.
Proof.
  destruct row as [| first rest]; [congruence |].
  intros _. eexists. reflexivity.
Qed.

(** ** Rows that sum to 1 *)

Lemma sums_to_one_nonempty (row : list Q) :
  sums_to_one row = true -> row <> [].
Proof. intros H ->. discriminate H. Qed.

Lemma sumQ_cons (x : Q) (rest : list Q) : sumQ (x :: rest) = x + sumQ rest.
Proof. reflexivity. Qed.

Lemma sumQ_nonneg (row : list Q) :
  forallb (Qle_bool 0) row = true -> 0 <= sumQ row.
Proof.
  induction row as [| x rest IH]; cbn [forallb]; intros H.
  - apply Qle_refl.
  - apply andb_true_iff in H. destruct H as [Hx Hrest].
    apply Qle_bool_iff in Hx. specialize (IH Hrest).
    rewrite sumQ_cons. lra.
Qed.

Lemma sumQ_bounds_entry (row : list Q) (x : Q) :
  forallb (Qle_bool 0) row = true -> In x row -> 0 <= x <= sumQ row.
Proof.
  induction row as [| y rest IH]; cbn [forallb In]; intros H Hin;
    [contradiction |].
  apply andb_true_iff in H. destruct H as [Hy Hrest].
  apply Qle_bool_iff in Hy.
  pose proof (sumQ_nonneg rest Hrest) as Hsum.
  rewrite sumQ_cons.
  destruct Hin as [<- | Hin].
  - lra.
  - specialize (IH Hrest Hin). lra.
Qed.

Lemma distribution_entry (row : list Q) (x : Q) :
  is_distribution row = true -> In x row -> 0 <= x <= 1.
Proof.
  unfold is_distribution, sums_to_one. intros H Hin.
  apply andb_true_iff in H. destruct H as [Hpos Hsum].
  apply Qeq_bool_iff in Hsum.
  pose proof (sumQ_bounds_entry row x Hpos Hin). lra.
Qed.

(** ** The comprehension of line 149 *)

Lemma confidences_error (ps : list (list Q)) (e : exception) :
  confidences ps = inl e -> e = ValueError max_empty.
Proof.
  induction ps as [| row rest IH]; simpl; [discriminate |].
  destruct row as [| first items]; simpl.
  - intros H. injection H as <-. reflexivity.
  - destruct (confidences rest) as [e' | cs]; simpl; [| discriminate].
    intros H. injection H as <-. apply IH. reflexivity.
Qed.

Lemma confidences_total (ps : list (list Q)) :
  Forall (fun row => row <> []) ps ->
  exists conf : list Q,
    confidences ps = inr conf
    /\ List.length conf = List.length ps
    /\ forall (i : nat) (row : list Q),
        nth_error ps i = Some row ->
        exists c : Q, nth_error conf i = Some c /\ py_max row = inr c.
Proof.
  induction 1 as [| row rest Hrow _ IH].
  - exists []. repeat split. intros [| i] row H; discriminate H.
  - destruct IH as [conf [Hconf [Hlen Hnth]]].
    destruct (py_max_nonempty Hrow) as [c Hc].
    exists (c :: conf). split; [| split].
    + simpl. rewrite Hc. simpl. rewrite Hconf. reflexivity.
    + simpl. congruence.
    + intros [| i] row' Hi; simpl in Hi.
      * injection Hi as <-. exists c. split; [reflexivity | assumption].
      * apply Hnth. assumption.
Qed.

Lemma output_fn_json (json_dumps : pyval -> string) (p : prediction)
      (conf : list Q) :
  confidences (probabilities p) = inr conf ->
  output_fn json_dumps p application_json
  = inr (json_dumps (response (predictions p) conf), application_json).
Proof. intros H. unfold output_fn. simpl. rewrite H. reflexivity. Qed.

Lemma distributions_nonempty (ps : list (list Q)) :
  forallb sums_to_one ps = true -> Forall (fun row => row <> []) ps.
Proof.
  intros H. apply Forall_forall. intros row Hin.
  rewrite forallb_forall in H. apply sums_to_one_nonempty. auto.
Qed.

(** C4.  When every row of the probability matrix is a distribution
    (non-negative entries that sum to 1), [output_fn] (accept
    ['application/json']) returns the serialised mapping that binds
    ['optimal_hours'] to the labels and ['confidence'] to a list that has,
    at each index, the maximum of the row at that index: an entry of the
    row that no entry exceeds, between 0 and 1.  That list is the same
    whatever the labels are. *)
Theorem confidence_is_row_maximum
        (json_dumps : pyval -> string) (probs : list (list Q)) :
  forallb is_distribution probs = true ->
  exists conf : list Q,
    (forall labels : list Z,
        output_fn json_dumps (mk_prediction labels probs) application_json
        = inr (json_dumps
                 (PDict [("optimal_hours", PList (map PInt labels));
                         ("confidence", PList (map PFloat conf))]),
               application_json))
    /\ List.length conf = List.length probs
    /\ forall (i : nat) (row : list Q),
        nth_error probs i = Some row ->
        exists c : Q,
          nth_error conf i = Some c
          /\ In c row
          /\ (forall x, In x row -> x <= c)
          /\ 0 <= c <= 1.
Proof.
  intros Hdist.
  assert (Hsum : forallb sums_to_one probs = true).
  { apply forallb_forall. intros row Hin.
    rewrite forallb_forall in Hdist. specialize (Hdist row Hin).
    unfold is_distribution in Hdist.
    apply andb_true_iff in Hdist. tauto. }
  destruct (confidences_total (distributions_nonempty _ Hsum))
    as [conf [Hconf [Hlen Hnth]]].
  exists conf. split; [| split].
  - intros labels. apply output_fn_json. exact Hconf.
  - exact Hlen.
  - intros i row Hi. destruct (Hnth i row Hi) as [c [Hc Hmax]].
    destruct (py_max_spec _ Hmax) as [Hin Hub].
    exists c. repeat split; try assumption.
    + apply (distribution_entry row).
      * rewrite forallb_forall in Hdist. apply Hdist.
        eapply nth_error_In; eauto.
      * assumption.
    + apply (distribution_entry row).
      * rewrite forallb_forall in Hdist. apply Hdist.
        eapply nth_error_In; eauto.
      * assumption.
Qed.

(** C7.  For a declared type other than ['application/json'], [input_fn]
    raises its unsupported-content-type error, the same for every body and
    every [json.loads] (the body is not decoded), and [output_fn] raises
    its unsupported-accept-type error instead of a response; for
    ['application/json'] neither function raises such an error. *)
Theorem unsupported_media_type
        (json_loads : string -> option pyval) (json_dumps : pyval -> string)
        (body : string) (p : prediction) (t : string) :
  t <> application_json ->
  input_fn json_loads body t = inl (ValueError (unsupported_content_type t))
  /\ (forall (loads' : string -> option pyval) (body' : string),
         input_fn loads' body' t = input_fn json_loads body t)
  /\ output_fn json_dumps p t = inl (ValueError (unsupported_accept_type t))
  /\ (forall t' : string,
         input_fn json_loads body application_json
         <> inl (ValueError (unsupported_content_type t')))
  /\ (forall t' : string,
         output_fn json_dumps p application_json
         <> inl (ValueError (unsupported_accept_type t'))).
Proof.
  intros Ht. apply String.eqb_neq in Ht.
  split; [| split; [| split; [| split]]].
  - unfold input_fn. rewrite Ht. reflexivity.
  - intros loads' body'. unfold input_fn. rewrite Ht. reflexivity.
  - unfold output_fn. rewrite Ht. reflexivity.
  - intros t' H. unfold input_fn in H. simpl in H.
    destruct (json_loads body) as [v |]; [| discriminate H].
    apply normalize_error_cases in H.
    destruct H as [H | [H | [H | [H | [H _]]]]]; discriminate H.
  - intros t' H. unfold output_fn in H. simpl in H.
    destruct (confidences (probabilities p)) as [e | conf] eqn:Hconf;
      [| discriminate H].
    apply confidences_error in Hconf. subst e. discriminate H.
Qed.

(** C8.  A decoded mapping without ['features'] whose ['contacts'] is the
    empty sequence is normalised, without error, to an array of no rows;
    and on a prediction of no rows [output_fn] returns the serialised
    response with empty [optimal_hours] and empty [confidence]. *)
Theorem empty_batch
        (json_loads : string -> option pyval) (json_dumps : pyval -> string)
        (body : string) (d : pydict) :
  json_loads body = Some (PDict d) ->
  dict_mem "features" d = false ->
  dict_get "contacts" d = Some (PList []) ->
  (exists m : ndarray,
      input_fn json_loads body application_json = inr m
      /\ nd_len m = 0%nat /\ nd_rows m = [])
  /\ output_fn json_dumps (mk_prediction [] []) application_json
     = inr (json_dumps (PDict [("optimal_hours", PList []);
                               ("confidence", PList [])]),
            application_json).
Proof.
  intros Hbody Hf Hc. split; [| reflexivity].
  exists (mk_ndarray [0%nat] (PList [])). split; [| split; reflexivity].
  rewrite (input_fn_json _ _ Hbody).
  apply (normalize_contacts d [] Hf Hc).
Qed.

(** C9.  On a prediction batch (every row of the probability matrix sums
    to 1) with [n] labels and [n] rows, [output_fn] (accept
    ['application/json']) returns a response and raises nothing: the
    serialised mapping that binds ['optimal_hours'] to the [n] labels and
    ['confidence'] to a list of [n] entries. *)
Theorem formatter_total
        (json_dumps : pyval -> string) (p : prediction) (n : nat) :
  List.length (predictions p) = n ->
  List.length (probabilities p) = n ->
  forallb sums_to_one (probabilities p) = true ->
  exists (hours : list Z) (conf : list Q),
    output_fn json_dumps p application_json
    = inr (json_dumps
             (PDict [("optimal_hours", PList (map PInt hours));
                     ("confidence", PList (map PFloat conf))]),
           application_json)
    /\ hours = predictions p
    /\ List.length hours = n
    /\ List.length conf = n.
Proof.
  intros Hlabels Hrows Hsum.
  destruct (confidences_total (distributions_nonempty _ Hsum))
    as [conf [Hconf [Hlen _]]].
  exists (predictions p), conf. repeat split.
  - apply output_fn_json. exact Hconf.
  - exact Hlabels.
  - congruence.
Qed.

(** * The theorems on concrete requests *)

(** Both errors of the normaliser are caught by [except ValueError]. *)
Remark both_errors_are_value_errors :
  isinstance JSONDecodeError CValueError = true
  /\ isinstance validation_error CValueError = true.
Proof. split; reflexivity. Qed.

(** The text of the empty response, as the sample writer lays it out. *)
Example empty_response_text :
  Sample.dumps (response [] [])
  = "{" ++ Sample.dquote ++ "optimal_hours" ++ Sample.dquote ++ ": [], "
        ++ Sample.dquote ++ "confidence" ++ Sample.dquote ++ ": []}".
Proof. reflexivity. Qed.

(** A ragged ['features'] value is refused by [np.array], not by the
    script. *)
Example ragged_features_refused :
  normalize (PDict [("features", PList [PInt 1; PList [PInt 2]])])
  = inl (ValueError inhomogeneous).
Proof. reflexivity. Qed.

(** A decoded value that is no container has no [in]: the membership test
    itself raises. *)
Example number_payload_type_error :
  normalize (PInt 5) = inl TypeError.
Proof. reflexivity. Qed.

(** A row without entries has no maximum. *)
Example empty_row_has_no_max :
  confidences [[]] = inl (ValueError max_empty).
Proof. reflexivity. Qed.

Lemma single_payload_row_values_witness :
  exists (m : ndarray) (a' b' c' : pyval),
    input_fn Sample.loads (Sample.body_of Sample.single_payload)
             application_json = inr m
    /\ nd_shape m = [1%nat; 3%nat]
    /\ nd_len m = 1%nat
    /\ value_rows m = Some [PList [a'; b'; c']]
    /\ Qvalue a' = Qvalue (PInt 1)
    /\ Qvalue b' = Qvalue (PInt 10)
    /\ Qvalue c' = Qvalue (PFloat (1 # 2)).
Proof.
  apply (@single_payload_row_values Sample.loads
           (Sample.body_of Sample.single_payload) Sample.single_payload);
    reflexivity.
Defined.

Lemma batch_rows_follow_contacts_witness :
  (forallb scalar_contact [[]; [("hour_of_day", PInt 3)]] = true ->
   exists m : ndarray,
     input_fn Sample.loads (Sample.body_of Sample.partial_payload)
              application_json = inr m)
  /\ forall m : ndarray,
      input_fn Sample.loads (Sample.body_of Sample.partial_payload)
               application_json = inr m ->
      nd_len m = 2%nat
      /\ List.length (nd_rows m) = 2%nat
      /\ forall (i : nat) (c : pydict),
          nth_error [[]; [("hour_of_day", PInt 3)]] i = Some c ->
          exists row : pyval,
            nth_error (nd_rows m) i = Some row
            /\ contact_row (PDict c) = inr row.
Proof.
  apply (@batch_rows_follow_contacts Sample.loads
           (Sample.body_of Sample.partial_payload) Sample.partial_payload
           [[]; [("hour_of_day", PInt 3)]]);
    reflexivity.
Defined.

Lemma contact_row_values_witness :
  (exists (rows : list pyval) (dv hv rv : pyval),
      value_rows (mk_ndarray [2%nat; 3%nat]
                    (PList [PList [PInt 0; PInt 12; PFloat (1 # 2)];
                            PList [PInt 0; PInt 3; PFloat (1 # 2)]]))
      = Some rows
      /\ nth_error rows 1 = Some (PList [dv; hv; rv])
      /\ (forall x, dict_get "day_of_week" [("hour_of_day", PInt 3)] = Some x
                    -> Qvalue dv = Qvalue x)
      /\ (dict_get "day_of_week" [("hour_of_day", PInt 3)] = None
          -> Qvalue dv = Some 0)
      /\ (forall x, dict_get "hour_of_day" [("hour_of_day", PInt 3)] = Some x
                    -> Qvalue hv = Qvalue x)
      /\ (dict_get "hour_of_day" [("hour_of_day", PInt 3)] = None
          -> Qvalue hv = Some 12)
      /\ (forall x,
             dict_get "previous_answer_rate" [("hour_of_day", PInt 3)] = Some x
             -> Qvalue rv = Qvalue x)
      /\ (dict_get "previous_answer_rate" [("hour_of_day", PInt 3)] = None
          -> Qvalue rv = Some (1 # 2)))
  /\ (exists m0 : ndarray,
         normalize (PDict [("contacts", PList [PDict []])]) = inr m0
         /\ value_rows m0
            = Some [PList [PFloat 0; PFloat 12; PFloat (1 # 2)]]).
Proof.
  apply (@contact_row_values Sample.partial_payload
           [[]; [("hour_of_day", PInt 3)]]
           (mk_ndarray [2%nat; 3%nat]
              (PList [PList [PInt 0; PInt 12; PFloat (1 # 2)];
                      PList [PInt 0; PInt 3; PFloat (1 # 2)]]))
           1 [("hour_of_day", PInt 3)]);
    reflexivity.
Defined.

Lemma validation_error_exactly_witness :
  (input_fn Sample.loads (Sample.body_of Sample.invalid_payload)
            application_json = inl validation_error
   <-> (exists d, PDict Sample.invalid_payload = PDict d
                  /\ dict_mem "features" d = false
                  /\ dict_mem "contacts" d = false)
       \/ (exists xs, PDict Sample.invalid_payload = PList xs
                      /\ existsb (is_str "features") xs = false
                      /\ existsb (is_str "contacts") xs = false)
       \/ (exists s, PDict Sample.invalid_payload = PStr s
                     /\ is_substring "features" s = false
                     /\ is_substring "contacts" s = false))
  /\ (is_iterable (PDict Sample.invalid_payload) = false ->
      input_fn Sample.loads (Sample.body_of Sample.invalid_payload)
               application_json = inl TypeError)
  /\ input_fn Sample.loads "not json" application_json = inl JSONDecodeError
  /\ JSONDecodeError <> validation_error
  /\ class_of JSONDecodeError <> class_of validation_error
  /\ isinstance JSONDecodeError CJSONDecodeError = true
  /\ isinstance validation_error CJSONDecodeError = false
  /\ normalize (PDict [("data", PList [PInt 1; PInt 2; PInt 3])])
     = inl validation_error.
Proof.
  apply (@validation_error_exactly Sample.loads
           (Sample.body_of Sample.invalid_payload) "not json"
           (PDict Sample.invalid_payload));
    reflexivity.
Defined.

Lemma scalar_features_wrapped_witness :
  input_fn Sample.loads (Sample.body_of Sample.scalar_payload)
           application_json
  = inr (mk_ndarray [1%nat] (PList [PInt 5])).
Proof.
  apply (@scalar_features_wrapped Sample.loads
           (Sample.body_of Sample.scalar_payload) Sample.scalar_payload
           (PInt 5));
    reflexivity.
Defined.

Lemma features_take_precedence_witness :
  normalize (PDict Sample.both_payload)
  = np_array (PList [PList [PInt 6; PInt 12; PFloat (2 # 5)]])
  /\ (forall d' : pydict,
         dict_get "features" d'
         = Some (PList [PInt 6; PInt 12; PFloat (2 # 5)]) ->
         normalize (PDict d') = normalize (PDict Sample.both_payload))
  /\ (forall s : list nat,
         shape_of (PList [PInt 6; PInt 12; PFloat (2 # 5)]) = Some s ->
         (List.length s < NPY_MAXDIMS)%nat ->
         exists m : ndarray,
           normalize (PDict Sample.both_payload) = inr m
           /\ nd_len m = 1%nat
           /\ nd_rows m = [PList [PInt 6; PInt 12; PFloat (2 # 5)]]).
Proof.
  apply (@features_take_precedence Sample.both_payload
           (PList [PInt 6; PInt 12; PFloat (2 # 5)])
           (PList [PDict [("day_of_week", PInt 2)]]));
    reflexivity.
Defined.

Lemma confidence_is_row_maximum_witness :
  exists conf : list Q,
    (forall labels : list Z,
        output_fn Sample.dumps
                  (mk_prediction labels
                     [[1 # 10; 17 # 20; 1 # 20]; [1 # 2; 1 # 2]])
                  application_json
        = inr (Sample.dumps
                 (PDict [("optimal_hours", PList (map PInt labels));
                         ("confidence", PList (map PFloat conf))]),
               application_json))
    /\ List.length conf = 2%nat
    /\ forall (i : nat) (row : list Q),
        nth_error [[1 # 10; 17 # 20; 1 # 20]; [1 # 2; 1 # 2]] i = Some row ->
        exists c : Q,
          nth_error conf i = Some c
          /\ In c row
          /\ (forall x, In x row -> x <= c)
          /\ 0 <= c <= 1.
Proof.
  apply (@confidence_is_row_maximum Sample.dumps
           [[1 # 10; 17 # 20; 1 # 20]; [1 # 2; 1 # 2]]).
  reflexivity.
Defined.

Lemma unsupported_media_type_witness :
  input_fn Sample.loads (Sample.body_of Sample.single_payload) "text/csv"
  = inl (ValueError (unsupported_content_type "text/csv"))
  /\ (forall (loads' : string -> option pyval) (body' : string),
         input_fn loads' body' "text/csv"
         = input_fn Sample.loads (Sample.body_of Sample.single_payload)
                    "text/csv")
  /\ output_fn Sample.dumps (mk_prediction [10%Z] [[3 # 20; 17 # 20]])
               "text/csv"
     = inl (ValueError (unsupported_accept_type "text/csv"))
  /\ (forall t' : string,
         input_fn Sample.loads (Sample.body_of Sample.single_payload)
                  application_json
         <> inl (ValueError (unsupported_content_type t')))
  /\ (forall t' : string,
         output_fn Sample.dumps (mk_prediction [10%Z] [[3 # 20; 17 # 20]])
                   application_json
         <> inl (ValueError (unsupported_accept_type t'))).
Proof.
  apply (@unsupported_media_type Sample.loads Sample.dumps
           (Sample.body_of Sample.single_payload)
           (mk_prediction [10%Z] [[3 # 20; 17 # 20]]) "text/csv").
  discriminate.
Defined.

Lemma empty_batch_witness :
  (exists m : ndarray,
      input_fn Sample.loads (Sample.body_of Sample.empty_payload)
               application_json = inr m
      /\ nd_len m = 0%nat /\ nd_rows m = [])
  /\ output_fn Sample.dumps (mk_prediction [] []) application_json
     = inr (Sample.dumps (PDict [("optimal_hours", PList []);
                                 ("confidence", PList [])]),
            application_json).
Proof.
  apply (@empty_batch Sample.loads Sample.dumps
           (Sample.body_of Sample.empty_payload) Sample.empty_payload);
    reflexivity.
Defined.

Lemma formatter_total_witness :
  exists (hours : list Z) (conf : list Q),
    output_fn Sample.dumps
              (mk_prediction [10%Z; 19%Z; 14%Z]
                 [[17 # 20; 1 # 10; 1 # 20];
                  [0; 1; 0];
                  [1 # 3; 1 # 3; 1 # 3]])
              application_json
    = inr (Sample.dumps
             (PDict [("optimal_hours", PList (map PInt hours));
                     ("confidence", PList (map PFloat conf))]),
           application_json)
    /\ hours = [10%Z; 19%Z; 14%Z]
    /\ List.length hours = 3%nat
    /\ List.length conf = 3%nat.
Proof.
  apply (@formatter_total Sample.dumps
           (mk_prediction [10%Z; 19%Z; 14%Z]
              [[17 # 20; 1 # 10; 1 # 20];
               [0; 1; 0];
               [1 # 3; 1 # 3; 1 # 3]])
           3);
    reflexivity.
Defined.

(** * Further properties of [input_fn] *)

Lemma guarded_getitem (k : string) (v : pyval) :
  py_contains k v = inr true ->
  py_getitem v k = inl TypeError \/ exists x, py_getitem v k = inr x.
Proof.
  destruct v; simpl; unfold raise, ret; try discriminate; auto.
  unfold dict_mem. destruct (dict_get k bindings) as [x |].
  - intros _. right. exists x. reflexivity.
  - discriminate.
Qed.

Lemma normalize_not_key_error (v : pyval) : normalize v <> inl KeyError.
Proof.
  unfold normalize. intros H.
  destruct (py_contains "features" v) as [e | [|]] eqn:Hf; simpl in H.
  - apply py_contains_error in Hf. congruence.
  - destruct (guarded_getitem _ _ Hf) as [Hg | [f Hg]];
      rewrite Hg in H; simpl in H; [discriminate |].
    apply np_array_error in H. discriminate.
  - destruct (py_contains "contacts" v) as [e | [|]] eqn:Hc; simpl in H.
    + apply py_contains_error in Hc. congruence.
    + destruct (guarded_getitem _ _ Hc) as [Hg | [cs Hg]];
        rewrite Hg in H; simpl in H; [discriminate |].
      destruct (py_iter cs) as [e | items] eqn:Hi; simpl in H.
      { apply py_iter_error in Hi. congruence. }
      destruct (contacts_loop [] items) as [e | rows] eqn:Hl; simpl in H.
      { apply contacts_loop_error in Hl. congruence. }
      apply np_array_error in H. discriminate.
    + discriminate.
Qed.

Lemma normalize_returns_on_mapping (v : pyval) (m : ndarray) :
  normalize v = inr m ->
  exists d : pydict,
    v = PDict d
    /\ (dict_mem "features" d = true \/ dict_mem "contacts" d = true).
Proof.
  unfold normalize, py_contains, py_getitem, bind, ret, raise.
  destruct v as [| b | z | q | s | xs | d]; try discriminate.
  - destruct (is_substring "features" s); [discriminate |].
    destruct (is_substring "contacts" s); discriminate.
  - destruct (existsb (is_str "features") xs); [discriminate |].
    destruct (existsb (is_str "contacts") xs); discriminate.
  - intros H. exists d. split; [reflexivity |].
    destruct (dict_mem "features" d); [auto |].
    destruct (dict_mem "contacts" d); [auto | discriminate].
Qed.

Lemma contact_row_non_dict (c : pyval) :
  is_dict c = false -> contact_row c = inl AttributeError.
Proof. destruct c; simpl; try discriminate; reflexivity. Qed.

Lemma contacts_loop_non_dict (cs : list pyval) :
  existsb (fun c => negb (is_dict c)) cs = true ->
  forall features, contacts_loop features cs = inl AttributeError.
Proof.
  induction cs as [| c rest IH]; simpl; [discriminate |].
  intros H features. destruct (is_dict c) eqn:Hc.
  - destruct c; try discriminate. rewrite contact_row_dict. simpl.
    apply IH. exact H.
  - rewrite (contact_row_non_dict _ Hc). reflexivity.
Qed.

Lemma contacts_loop_all_dicts (cs : list pyval) :
  existsb (fun c => negb (is_dict c)) cs = false ->
  forall features, exists rows, contacts_loop features cs = inr rows.
Proof.
  induction cs as [| c rest IH]; simpl; intros H features.
  - eexists. reflexivity.
  - apply orb_false_iff in H. destruct H as [Hc Hrest].
    destruct c; try discriminate. rewrite contact_row_dict. simpl.
    apply IH. exact Hrest.
Qed.

Lemma normalize_contacts_list (d : pydict) (cs : list pyval) :
  dict_mem "features" d = false ->
  dict_get "contacts" d = Some (PList cs) ->
  normalize (PDict d)
  = (rows <- contacts_loop [] cs ;; np_array (PList rows)).
Proof.
  intros Hf Hc. unfold normalize, py_contains, py_getitem.
  simpl. rewrite Hf. unfold dict_mem. rewrite Hc. reflexivity.
Qed.

Lemma normalize_contacts_value (d : pydict) (c : pyval) :
  dict_mem "features" d = false ->
  dict_get "contacts" d = Some c ->
  normalize (PDict d)
  = (contacts <- py_iter c ;;
     rows <- contacts_loop [] contacts ;;
     np_array (PList rows)).
Proof.
  intros Hf Hc. unfold normalize, py_contains, py_getitem.
  simpl. rewrite Hf. unfold dict_mem. rewrite Hc. reflexivity.
Qed.

Lemma same_fields_row (c c' : pydict) :
  same_fields c c' -> row_of c = row_of c'.
Proof.
  intros [Hd [Hh Hr]]. unfold row_of, field. rewrite Hd, Hh, Hr. reflexivity.
Qed.

(** X1.  [input_fn] never raises [KeyError], for any body, decoder and
    content type: each subscript is guarded by the membership test before
    it. *)
Theorem input_fn_never_key_error
        (json_loads : string -> option pyval) (body content_type : string) :
  input_fn json_loads body content_type <> inl KeyError.
Proof.
  unfold input_fn.
  destruct (String.eqb content_type application_json); [| discriminate].
  destruct (json_loads body) as [v |]; [| discriminate].
  apply normalize_not_key_error.
Qed.

(** X2.  [input_fn] returns an array only when the content type is
    ['application/json'] and the body decodes to a mapping that binds
    ['features'] or ['contacts']: a JSON array, string, number, boolean or
    null is never normalised. *)
Theorem input_fn_accepts_only_mappings
        (json_loads : string -> option pyval) (body content_type : string)
        (m : ndarray) :
  input_fn json_loads body content_type = inr m ->
  content_type = application_json
  /\ exists d : pydict,
      json_loads body = Some (PDict d)
      /\ (dict_mem "features" d = true \/ dict_mem "contacts" d = true).
Proof.
  unfold input_fn.
  destruct (String.eqb content_type application_json) eqn:Hct;
    [| discriminate].
  apply String.eqb_eq in Hct.
  destruct (json_loads body) as [v |]; [| discriminate].
  intros H. split; [exact Hct |].
  destruct (normalize_returns_on_mapping _ H) as [d [-> Hkeys]].
  exists d. auto.
Qed.

(** X3.  In a batch, [AttributeError] is raised exactly when some entry of
    ['contacts'] is not a mapping; no array is then returned, not even for
    the contacts before it. *)
Theorem non_mapping_contact_fails (d : pydict) (cs : list pyval) :
  dict_mem "features" d = false ->
  dict_get "contacts" d = Some (PList cs) ->
  (normalize (PDict d) = inl AttributeError
   <-> existsb (fun c => negb (is_dict c)) cs = true).
Proof.
  intros Hf Hc. rewrite (normalize_contacts_list _ Hf Hc). split.
  - intros H.
    destruct (existsb (fun c => negb (is_dict c)) cs) eqn:Hex;
      [reflexivity |].
    destruct (contacts_loop_all_dicts _ Hex []) as [rows Hrows].
    rewrite Hrows in H. simpl in H.
    apply np_array_error in H. discriminate.
  - intros H. rewrite (contacts_loop_non_dict _ H). reflexivity.
Qed.

(** X4.  A ['contacts'] value that cannot be iterated ([None], a boolean or
    a number) makes the batch branch raise [TypeError]. *)
Theorem contacts_not_iterable (d : pydict) (c : pyval) :
  dict_mem "features" d = false ->
  dict_get "contacts" d = Some c ->
  is_iterable c = false ->
  normalize (PDict d) = inl TypeError.
Proof.
  intros Hf Hc Hit. rewrite (normalize_contacts_value _ Hf Hc).
  destruct c; try discriminate; reflexivity.
Qed.

(** X5.  A ['contacts'] value that is a mapping or a string is iterated
    like the list the script expects: its keys or characters are taken for
    contacts.  When it is empty the request is accepted as an empty batch;
    otherwise the first key or character, a string, has no [.get] and
    [AttributeError] is raised. *)
Theorem contacts_mapping_or_text (d : pydict) (c : pyval) :
  dict_mem "features" d = false ->
  dict_get "contacts" d = Some c ->
  (c = PDict [] \/ c = PStr EmptyString ->
   normalize (PDict d) = inr (mk_ndarray [0%nat] (PList [])))
  /\ (forall k x rest, c = PDict ((k, x) :: rest) ->
                       normalize (PDict d) = inl AttributeError)
  /\ (forall a s, c = PStr (String a s) ->
                  normalize (PDict d) = inl AttributeError).
Proof.
  intros Hf Hc. rewrite (normalize_contacts_value _ Hf Hc).
  split; [| split].
  - intros [-> | ->]; reflexivity.
  - intros k x rest ->. reflexivity.
  - intros a s ->. reflexivity.
Qed.

(** X6.  The array of a batch depends only on what each contact binds to
    the three feature keys: other keys of a contact, other keys of the
    payload and the order of the keys are ignored. *)
Theorem only_feature_keys_matter (d d' : pydict) (cs cs' : list pydict) :
  dict_mem "features" d = false ->
  dict_mem "features" d' = false ->
  dict_get "contacts" d = Some (PList (map PDict cs)) ->
  dict_get "contacts" d' = Some (PList (map PDict cs')) ->
  Forall2 same_fields cs cs' ->
  normalize (PDict d) = normalize (PDict d').
Proof.
  intros Hf Hf' Hc Hc' Hsame.
  rewrite (normalize_contacts _ _ Hf Hc), (normalize_contacts _ _ Hf' Hc').
  assert (Hrows : map (fun c => PList (row_of c)) cs
                  = map (fun c => PList (row_of c)) cs').
  { clear Hc Hc'.
    induction Hsame as [| c c' rest rest' Hcc _ IH]; [reflexivity |].
    simpl. rewrite (same_fields_row Hcc), IH. reflexivity. }
  rewrite Hrows. reflexivity.
Qed.

(** X7.  The two request shapes agree: a payload [{'features': [a, b, c]}]
    and a batch of the one contact that binds [a], [b] and [c] to
    [day_of_week], [hour_of_day] and [previous_answer_rate] have the same
    outcome. *)
Theorem single_and_batch_agree
        (d d' contact : pydict) (a b c : pyval) :
  dict_get "features" d = Some (PList [a; b; c]) ->
  dict_mem "features" d' = false ->
  dict_get "contacts" d' = Some (PList [PDict contact]) ->
  dict_get "day_of_week" contact = Some a ->
  dict_get "hour_of_day" contact = Some b ->
  dict_get "previous_answer_rate" contact = Some c ->
  normalize (PDict d) = normalize (PDict d').
Proof.
  intros Hfeat Hf' Hc' Ha Hb Hc.
  rewrite (normalize_features _ Hfeat).
  rewrite (normalize_contacts d' [contact] Hf' Hc').
  simpl. unfold row_of, field. rewrite Ha, Hb, Hc. reflexivity.
Qed.

(** * Further properties of [output_fn] and [predict_fn] *)

Lemma confidences_empty_row (ps : list (list Q)) :
  In [] ps -> confidences ps = inl (ValueError max_empty).
Proof.
  induction ps as [| row rest IH]; simpl; [contradiction |].
  intros [-> | Hin]; [reflexivity |].
  destruct row as [| first items]; [reflexivity |].
  simpl. rewrite (IH Hin). reflexivity.
Qed.

Lemma not_in_nil_nonempty (ps : list (list Q)) :
  ~ In [] ps -> Forall (fun row => row <> []) ps.
Proof.
  intros H. apply Forall_forall. intros row Hin ->. contradiction.
Qed.

Lemma sumQ_le_length_times_bound (row : list Q) (c : Q) :
  (forall x, In x row -> x <= c) ->
  sumQ row <= inject_Z (Z.of_nat (List.length row)) * c.
Proof.
  induction row as [| x rest IH]; intros Hub.
  - change (0 <= 0 * c). lra.
  - rewrite sumQ_cons.
    assert (Hx : x <= c) by (apply Hub; left; reflexivity).
    assert (Hrest : sumQ rest <= inject_Z (Z.of_nat (List.length rest)) * c).
    { apply IH. intros y Hy. apply Hub. right. assumption. }
    assert (Hlen : inject_Z (Z.of_nat (List.length (x :: rest))) * c
                   == inject_Z (Z.of_nat (List.length rest)) * c + c).
    { cbn [List.length]. rewrite Nat2Z.inj_succ. unfold Z.succ.
      rewrite inject_Z_plus. ring. }
    rewrite Hlen. lra.
Qed.

Lemma max_loop_perm_eq (row row' : list Q) (c c' : Q) :
  Permutation row row' ->
  py_max row = inr c -> py_max row' = inr c' -> c == c'.
Proof.
  intros Hperm Hc Hc'.
  destruct (py_max_spec _ Hc) as [Hin Hub].
  destruct (py_max_spec _ Hc') as [Hin' Hub'].
  apply Qle_antisym.
  - apply Hub'. eapply Permutation_in; eauto.
  - apply Hub. eapply Permutation_in; [apply Permutation_sym |]; eauto.
Qed.

(** X8.  With accept ['application/json'], [output_fn] raises exactly when
    some row of the probability matrix has no entry (the [ValueError] of
    [max]); otherwise it returns the labels as [optimal_hours] and one
    confidence for each row, whether or not there are as many labels as
    rows. *)
Theorem formatter_fails_on_empty_row
        (json_dumps : pyval -> string) (p : prediction) :
  (In [] (probabilities p) ->
   output_fn json_dumps p application_json = inl (ValueError max_empty))
  /\ (~ In [] (probabilities p) ->
      exists conf : list Q,
        output_fn json_dumps p application_json
        = inr (json_dumps
                 (PDict [("optimal_hours",
                          PList (map PInt (predictions p)));
                         ("confidence", PList (map PFloat conf))]),
               application_json)
        /\ List.length conf = List.length (probabilities p)).
Proof.
  split.
  - intros Hin. unfold output_fn. simpl.
    rewrite (confidences_empty_row _ Hin). reflexivity.
  - intros Hnot.
    destruct (confidences_total (not_in_nil_nonempty _ Hnot))
      as [conf [Hconf [Hlen _]]].
    exists conf. split; [apply output_fn_json; exact Hconf | exact Hlen].
Qed.

(** X9.  For a row that is a distribution over [K] classes, the confidence
    [output_fn] computes is at least [1/K]: [K] times the confidence is at
    least 1. *)
Theorem confidence_at_least_uniform
        (probs : list (list Q)) (conf : list Q) (i : nat) (row : list Q)
        (c : Q) :
  forallb is_distribution probs = true ->
  confidences probs = inr conf ->
  nth_error probs i = Some row ->
  nth_error conf i = Some c ->
  1 <= inject_Z (Z.of_nat (List.length row)) * c.
Proof.
  intros Hdist Hconf Hrow Hc.
  assert (Hd : is_distribution row = true).
  { rewrite forallb_forall in Hdist. apply Hdist.
    eapply nth_error_In; eauto. }
  assert (Hne : Forall (fun r : list Q => r <> []) probs).
  { apply distributions_nonempty. apply forallb_forall. intros r Hr.
    rewrite forallb_forall in Hdist. specialize (Hdist r Hr).
    unfold is_distribution in Hdist. apply andb_true_iff in Hdist. tauto. }
  destruct (confidences_total Hne) as [conf' [Hconf' [_ Hnth]]].
  assert (conf' = conf) by congruence. subst conf'.
  destruct (Hnth i row Hrow) as [c' [Hc' Hmax]].
  assert (c' = c) by congruence. subst c'.
  destruct (py_max_spec _ Hmax) as [_ Hub].
  pose proof (sumQ_le_length_times_bound row Hub) as Hsum.
  unfold is_distribution, sums_to_one in Hd.
  apply andb_true_iff in Hd. destruct Hd as [_ Hone].
  apply Qeq_bool_iff in Hone. rewrite Hone in Hsum. exact Hsum.
Qed.

(** X10.  The confidence of a row does not depend on the order of its
    entries: [max] of a rearranged row is the same number. *)
Theorem confidence_order_independent (row row' : list Q) (c : Q) :
  Permutation row row' ->
  py_max row = inr c ->
  exists c' : Q, py_max row' = inr c' /\ c == c'.
Proof.
  intros Hperm Hc.
  assert (Hne : row' <> []).
  { intros ->. apply Permutation_sym, Permutation_nil in Hperm.
    subst row. discriminate Hc. }
  destruct (py_max_nonempty Hne) as [c' Hc'].
  exists c'. split; [exact Hc' |].
  eapply max_loop_perm_eq; eauto.
Qed.

(** X11.  The three handlers compose on a batch: when [input_fn] returns an
    array for a batch of contacts and the model answers it with one label
    and one row summing to 1 for each row of the array, [predict_fn]
    returns and [output_fn] returns a response with one optimal hour and
    one confidence for each contact. *)
Theorem batch_pipeline
        (json_loads : string -> option pyval) (json_dumps : pyval -> string)
        (model : classifier) (body : string) (d : pydict) (cs : list pydict)
        (m : ndarray) (labels : list Z) (rows : list (list Q)) :
  json_loads body = Some (PDict d) ->
  dict_mem "features" d = false ->
  dict_get "contacts" d = Some (PList (map PDict cs)) ->
  input_fn json_loads body application_json = inr m ->
  predict model m = inr labels ->
  predict_proba model m = inr rows ->
  List.length labels = nd_len m ->
  List.length rows = nd_len m ->
  forallb sums_to_one rows = true ->
  exists (p : prediction) (conf : list Q),
    predict_fn m model = inr p
    /\ output_fn json_dumps p application_json
       = inr (json_dumps
                (PDict [("optimal_hours", PList (map PInt labels));
                        ("confidence", PList (map PFloat conf))]),
              application_json)
    /\ List.length labels = List.length cs
    /\ List.length conf = List.length cs.
Proof.
  intros Hbody Hf Hc Hm Hl Hr Hlen_l Hlen_r Hsum.
  assert (Hn : nd_len m = List.length cs).
  { rewrite (input_fn_json _ _ Hbody), (normalize_contacts _ _ Hf Hc) in Hm.
    rewrite (np_array_len _ Hm). apply length_map. }
  destruct (confidences_total (distributions_nonempty _ Hsum))
    as [conf [Hconf [Hlen _]]].
  exists (mk_prediction labels rows), conf. repeat split.
  - unfold predict_fn. rewrite Hl. simpl. rewrite Hr. reflexivity.
  - apply output_fn_json. exact Hconf.
  - congruence.
  - congruence.
Qed.

(** * The training targets *)

Lemma target_cases (hour : Q) :
  target hour = 10%Z \/ target hour = 14%Z \/ target hour = 19%Z.
Proof.
  unfold target.
  destruct (Qle_bool 9 hour && Qle_bool hour 11); [auto |].
  destruct (Qle_bool 18 hour && Qle_bool hour 20); auto.
Qed.

(** X12.  The vector [y] has one target for each row of [X], and every
    target is 10, 14 or 19: an hour of the day, and at most three classes
    for the classifier to learn. *)
Theorem targets_are_three_hours (X : list sample) :
  List.length (targets X) = List.length X
  /\ forall y : Z,
      In y (targets X) ->
      (y = 10 \/ y = 14 \/ y = 19)%Z /\ (0 <= y <= 23)%Z.
Proof.
  split; [apply length_map |].
  intros y Hin. unfold targets in Hin. apply in_map_iff in Hin.
  destruct Hin as [row [<- _]].
  destruct (target_cases (hour_column row)) as [H | [H | H]];
    rewrite H; lia.
Qed.

(** X13.  The target depends on the hour alone, and each target is an hour
    to which the rule assigns that same target: 10 lies in the morning
    band, 19 in the evening band and 14 in neither. *)
Theorem target_is_fixed_point (day day' hour rate rate' : Q) :
  targets [(day, hour, rate)] = targets [(day', hour, rate')]
  /\ target (inject_Z (target hour)) = target hour.
Proof.
  split; [reflexivity |].
  destruct (target_cases hour) as [H | [H | H]]; rewrite H; reflexivity.
Qed.

(** * The test suite *)

Section HarnessFacts.

Variable world : Type.
Variable invoke_endpoint : string -> string -> string -> io world string.
Variable describe_endpoint : string -> io world string.
Variable json_loads : string -> option pyval.
Variable json_dumps : pyval -> string.

Lemma request_answered (name body : string) (w : world) :
  always_answers invoke_endpoint json_loads ->
  exists v w', request invoke_endpoint json_loads name body w = (inr v, w').
Proof.
  intros H. destruct (H name "application/json" body w)
    as [text [v [w' [Hcall Hjson]]]].
  exists v, w'. unfold request, io_bind, decode.
  rewrite Hcall, Hjson. reflexivity.
Qed.

Lemma request_rejected (name body : string) (w : world) :
  always_rejects invoke_endpoint ->
  exists code w',
    request invoke_endpoint json_loads name body w
    = (inl (ClientError code), w').
Proof.
  intros H. destruct (H name "application/json" body w)
    as [code [w' Hcall]].
  exists code, w'. unfold request, io_bind.
  rewrite Hcall. reflexivity.
Qed.

Lemma edge_loop_answered (name : string) (cases : list (string * pyval)) :
  always_answers invoke_endpoint json_loads ->
  forall passed failed w,
  exists w',
    edge_loop invoke_endpoint json_loads json_dumps name cases passed failed w
    = (inr ((passed + List.length cases)%nat, failed), w').
Proof.
  intros H. induction cases as [| test_case rest IH];
    intros passed failed w; simpl.
  - exists w. unfold io_ret. rewrite Nat.add_0_r. reflexivity.
  - destruct (request_answered name (json_dumps (snd test_case)) w H)
      as [v [w1 Hreq]].
    destruct (IH (S passed) failed w1) as [w' Hrest].
    exists w'. unfold io_bind, except_ClientError in *.
    rewrite Hreq. simpl. rewrite Hrest.
    rewrite Nat.add_succ_r. reflexivity.
Qed.

Lemma edge_loop_rejected (name : string) (cases : list (string * pyval)) :
  always_rejects invoke_endpoint ->
  forall passed failed w,
  exists w',
    edge_loop invoke_endpoint json_loads json_dumps name cases passed failed w
    = (inr (passed, (failed + List.length cases)%nat), w').
Proof.
  intros H. induction cases as [| test_case rest IH];
    intros passed failed w; simpl.
  - exists w. unfold io_ret. rewrite Nat.add_0_r. reflexivity.
  - destruct (request_rejected name (json_dumps (snd test_case)) w H)
      as [code [w1 Hreq]].
    destruct (IH passed (S failed) w1) as [w' Hrest].
    exists w'. unfold io_bind, except_ClientError in *.
    rewrite Hreq. simpl. rewrite Hrest.
    rewrite Nat.add_succ_r. reflexivity.
Qed.

Lemma error_loop_returns (name : string) (tests : list (string * pyval)) :
  forall w,
  exists w',
    error_loop invoke_endpoint json_loads json_dumps name tests w
    = (inr tt, w').
Proof.
  induction tests as [| test rest IH]; intros w; simpl.
  - exists w. reflexivity.
  - unfold io_bind at 1. unfold except_Exception, io_bind at 1.
    destruct (request invoke_endpoint json_loads name
                      (body_of_payload json_dumps (snd test)) w)
      as [[[code | |] | v] w1]; simpl; apply IH.
Qed.

Lemma check_in_service (name : string) (w : world) :
  always_in_service describe_endpoint ->
  exists w', check_endpoint_status describe_endpoint name w = (inr true, w').
Proof.
  intros H. destruct (H name w) as [w' Hd]. exists w'.
  unfold check_endpoint_status, except_ClientError, io_bind.
  rewrite Hd. reflexivity.
Qed.

Lemma single_answered (name : string) (w : world) :
  always_answers invoke_endpoint json_loads ->
  exists w',
    test_single_prediction invoke_endpoint json_loads json_dumps name w
    = (inr true, w').
Proof.
  intros H.
  destruct (request_answered name
              (json_dumps (PDict Sample.single_payload)) w H)
    as [v [w' Hreq]].
  exists w'. unfold test_single_prediction, except_ClientError, io_bind.
  rewrite Hreq. reflexivity.
Qed.

Lemma batch_answered (name : string) (w : world) :
  always_answers invoke_endpoint json_loads ->
  exists w',
    test_batch_prediction invoke_endpoint json_loads json_dumps name w
    = (inr true, w').
Proof.
  intros H.
  destruct (request_answered name
              (json_dumps (PDict Sample.batch_payload)) w H)
    as [v [w' Hreq]].
  exists w'. unfold test_batch_prediction, except_ClientError, io_bind.
  rewrite Hreq. reflexivity.
Qed.

Lemma single_rejected (name : string) (w : world) :
  always_rejects invoke_endpoint ->
  exists w',
    test_single_prediction invoke_endpoint json_loads json_dumps name w
    = (inr false, w').
Proof.
  intros H.
  destruct (request_rejected name
              (json_dumps (PDict Sample.single_payload)) w H)
    as [code [w' Hreq]].
  exists w'. unfold test_single_prediction, except_ClientError, io_bind.
  rewrite Hreq. reflexivity.
Qed.

Lemma batch_rejected (name : string) (w : world) :
  always_rejects invoke_endpoint ->
  exists w',
    test_batch_prediction invoke_endpoint json_loads json_dumps name w
    = (inr false, w').
Proof.
  intros H.
  destruct (request_rejected name
              (json_dumps (PDict Sample.batch_payload)) w H)
    as [code [w' Hreq]].
  exists w'. unfold test_batch_prediction, except_ClientError, io_bind.
  rewrite Hreq. reflexivity.
Qed.

Lemma edge_cases_answered (name : string) (w : world) :
  always_answers invoke_endpoint json_loads ->
  exists w',
    test_edge_cases invoke_endpoint json_loads json_dumps name w
    = (inr true, w').
Proof.
  intros H.
  destruct (edge_loop_answered name edge_test_cases H 0 0 w) as [w' Hloop].
  exists w'. unfold test_edge_cases, io_bind. rewrite Hloop. reflexivity.
Qed.

Lemma edge_cases_rejected (name : string) (w : world) :
  always_rejects invoke_endpoint ->
  exists w',
    test_edge_cases invoke_endpoint json_loads json_dumps name w
    = (inr false, w').
Proof.
  intros H.
  destruct (edge_loop_rejected name edge_test_cases H 0 0 w) as [w' Hloop].
  exists w'. unfold test_edge_cases, io_bind. rewrite Hloop. reflexivity.
Qed.

Lemma error_handling_returns (name : string) (w : world) :
  exists w',
    test_error_handling invoke_endpoint json_loads json_dumps name w
    = (inr true, w').
Proof.
  destruct (error_loop_returns name invalid_payloads w) as [w' Hloop].
  exists w'. unfold test_error_handling, io_bind. rewrite Hloop. reflexivity.
Qed.

End HarnessFacts.

(** X14.  [test_error_handling] returns [True] whatever the endpoint does
    with the three invalid requests: answer them, reject them with a
    [ClientError], or fail with any other exception.  No exception leaves
    it. *)
Theorem error_handling_test_always_passes
        (world : Type)
        (invoke_endpoint : string -> string -> string -> io world string)
        (json_loads : string -> option pyval) (json_dumps : pyval -> string)
        (endpoint_name : string) (w : world) :
  exists w' : world,
    test_error_handling invoke_endpoint json_loads json_dumps endpoint_name w
    = (inr true, w').
Proof. apply error_handling_returns. Qed.

(** X15.  Against an endpoint that is in service and answers every request
    with JSON text, the invalid ones included, [main] exits with status 0:
    all four tests count as passed. *)
Theorem suite_passes_without_validation
        (world : Type)
        (invoke_endpoint : string -> string -> string -> io world string)
        (describe_endpoint : string -> io world string)
        (json_loads : string -> option pyval) (json_dumps : pyval -> string)
        (endpoint_name : string) (w : world) :
  always_in_service describe_endpoint ->
  always_answers invoke_endpoint json_loads ->
  exists w' : world,
    main invoke_endpoint describe_endpoint json_loads json_dumps
         endpoint_name w
    = (inr 0%Z, w').
Proof.
  intros Hservice Hanswers.
  destruct (check_in_service endpoint_name w Hservice) as [w0 H0].
  destruct (single_answered json_dumps endpoint_name w0 Hanswers)
    as [w1 H1].
  destruct (batch_answered json_dumps endpoint_name w1 Hanswers)
    as [w2 H2].
  destruct (edge_cases_answered json_dumps endpoint_name w2 Hanswers)
    as [w3 H3].
  destruct (error_handling_returns invoke_endpoint json_loads json_dumps
              endpoint_name w3) as [w4 H4].
  exists w4. unfold main, io_bind.
  rewrite H0. simpl. rewrite H1, H2, H3, H4. reflexivity.
Qed.

(** X16.  Against an endpoint that is in service and rejects every request
    with a [ClientError], [main] exits with status 1 and no exception
    leaves it. *)
Theorem suite_fails_when_rejected
        (world : Type)
        (invoke_endpoint : string -> string -> string -> io world string)
        (describe_endpoint : string -> io world string)
        (json_loads : string -> option pyval) (json_dumps : pyval -> string)
        (endpoint_name : string) (w : world) :
  always_in_service describe_endpoint ->
  always_rejects invoke_endpoint ->
  exists w' : world,
    main invoke_endpoint describe_endpoint json_loads json_dumps
         endpoint_name w
    = (inr 1%Z, w').
Proof.
  intros Hservice Hrejects.
  destruct (check_in_service endpoint_name w Hservice) as [w0 H0].
  destruct (single_rejected json_loads json_dumps endpoint_name w0 Hrejects)
    as [w1 H1].
  destruct (batch_rejected json_loads json_dumps endpoint_name w1 Hrejects)
    as [w2 H2].
  destruct (edge_cases_rejected json_loads json_dumps endpoint_name w2
              Hrejects) as [w3 H3].
  destruct (error_handling_returns invoke_endpoint json_loads json_dumps
              endpoint_name w3) as [w4 H4].
  exists w4. unfold main, io_bind.
  rewrite H0. simpl. rewrite H1, H2, H3, H4. reflexivity.
Qed.

(** X17.  When the endpoint is not in service, or the status query is
    rejected with a [ClientError], [main] exits with status 1 right after
    the query: no test request is sent. *)
Theorem no_test_unless_in_service
        (world : Type)
        (invoke_endpoint : string -> string -> string -> io world string)
        (describe_endpoint : string -> io world string)
        (json_loads : string -> option pyval) (json_dumps : pyval -> string)
        (endpoint_name : string) (w w' : world)
        (answer : harness_exn + string) :
  describe_endpoint endpoint_name w = (answer, w') ->
  (exists status, answer = inr status /\ status <> "InService")
  \/ (exists code, answer = inl (ClientError code)) ->
  main invoke_endpoint describe_endpoint json_loads json_dumps
       endpoint_name w
  = (inr 1%Z, w').
Proof.
  intros Hd [[status [-> Hstatus]] | [code ->]];
    unfold main, io_bind, check_endpoint_status, except_ClientError, io_bind;
    rewrite Hd.
  - apply String.eqb_neq in Hstatus. rewrite Hstatus. reflexivity.
  - reflexivity.
Qed.

(** X18.  When the endpoint is in service and answers the first test
    request with text that is not JSON, the decoding error leaves
    [test_single_prediction] and [main]: the suite stops there, with no
    summary and no further request. *)
Theorem suite_aborts_on_garbled_response
        (world : Type)
        (invoke_endpoint : string -> string -> string -> io world string)
        (describe_endpoint : string -> io world string)
        (json_loads : string -> option pyval) (json_dumps : pyval -> string)
        (endpoint_name text : string) (w w1 w2 : world) :
  describe_endpoint endpoint_name w = (inr "InService", w1) ->
  invoke_endpoint endpoint_name "application/json"
                  (json_dumps (PDict Sample.single_payload)) w1
  = (inr text, w2) ->
  json_loads text = None ->
  main invoke_endpoint describe_endpoint json_loads json_dumps
       endpoint_name w
  = (inl ResponseNotJSON, w2).
Proof.
  intros Hd Hcall Hjson.
  unfold main, io_bind, check_endpoint_status, except_ClientError, io_bind.
  rewrite Hd. simpl.
  unfold test_single_prediction, except_ClientError, io_bind, request,
    io_bind, decode.
  rewrite Hcall, Hjson. reflexivity.
Qed.

(** * The further properties on concrete inputs *)

Lemma input_fn_accepts_only_mappings_witness :
  application_json = application_json
  /\ exists d : pydict,
      Sample.loads (Sample.body_of Sample.single_payload) = Some (PDict d)
      /\ (dict_mem "features" d = true \/ dict_mem "contacts" d = true).
Proof.
  apply (@input_fn_accepts_only_mappings Sample.loads
           (Sample.body_of Sample.single_payload) application_json
           (mk_ndarray [1%nat; 3%nat]
              (PList [PList [PInt 1; PInt 10; PFloat (1 # 2)]]))).
  reflexivity.
Defined.

Lemma non_mapping_contact_fails_witness :
  normalize (PDict [("contacts", PList [PDict []; PInt 7])])
  = inl AttributeError
  <-> existsb (fun c => negb (is_dict c)) [PDict []; PInt 7] = true.
Proof.
  apply (@non_mapping_contact_fails
           [("contacts", PList [PDict []; PInt 7])] [PDict []; PInt 7]);
    reflexivity.
Defined.

Lemma contacts_not_iterable_witness :
  normalize (PDict [("contacts", PInt 3)]) = inl TypeError.
Proof.
  apply (@contacts_not_iterable [("contacts", PInt 3)] (PInt 3));
    reflexivity.
Defined.

Lemma contacts_mapping_or_text_witness :
  (PDict [("a", PInt 1)] = PDict [] \/ PDict [("a", PInt 1)] = PStr EmptyString ->
   normalize (PDict [("contacts", PDict [("a", PInt 1)])])
   = inr (mk_ndarray [0%nat] (PList [])))
  /\ (forall k x rest, PDict [("a", PInt 1)] = PDict ((k, x) :: rest) ->
                       normalize (PDict [("contacts", PDict [("a", PInt 1)])])
                       = inl AttributeError)
  /\ (forall a s, PDict [("a", PInt 1)] = PStr (String a s) ->
                  normalize (PDict [("contacts", PDict [("a", PInt 1)])])
                  = inl AttributeError).
Proof.
  apply (@contacts_mapping_or_text
           [("contacts", PDict [("a", PInt 1)])] (PDict [("a", PInt 1)]));
    reflexivity.
Defined.

Lemma only_feature_keys_matter_witness :
  normalize (PDict [("contacts", PList [PDict [("hour_of_day", PInt 3)]])])
  = normalize
      (PDict [("note", PStr "x");
              ("contacts",
               PList [PDict [("name", PStr "Dana");
                             ("hour_of_day", PInt 3)]])]).
Proof.
  apply (@only_feature_keys_matter
           [("contacts", PList [PDict [("hour_of_day", PInt 3)]])]
           [("note", PStr "x");
            ("contacts",
             PList [PDict [("name", PStr "Dana"); ("hour_of_day", PInt 3)]])]
           [[("hour_of_day", PInt 3)]]
           [[("name", PStr "Dana"); ("hour_of_day", PInt 3)]]);
    try reflexivity.
  repeat constructor.
Defined.

Lemma single_and_batch_agree_witness :
  normalize (PDict Sample.single_payload)
  = normalize
      (PDict [("contacts",
               PList [PDict [("previous_answer_rate", PFloat (1 # 2));
                             ("day_of_week", PInt 1);
                             ("hour_of_day", PInt 10)]])]).
Proof.
  apply (@single_and_batch_agree Sample.single_payload
           [("contacts",
             PList [PDict [("previous_answer_rate", PFloat (1 # 2));
                           ("day_of_week", PInt 1);
                           ("hour_of_day", PInt 10)]])]
           [("previous_answer_rate", PFloat (1 # 2));
            ("day_of_week", PInt 1);
            ("hour_of_day", PInt 10)]
           (PInt 1) (PInt 10) (PFloat (1 # 2)));
    reflexivity.
Defined.

Lemma confidence_at_least_uniform_witness :
  1 <= inject_Z (Z.of_nat (List.length [1 # 10; 17 # 20; 1 # 20]))
       * (17 # 20).
Proof.
  apply (@confidence_at_least_uniform
           [[1 # 10; 17 # 20; 1 # 20]] [17 # 20] 0
           [1 # 10; 17 # 20; 1 # 20] (17 # 20));
    reflexivity.
Defined.

Lemma confidence_order_independent_witness :
  exists c' : Q,
    py_max [1 # 10; 17 # 20; 1 # 20] = inr c' /\ 17 # 20 == c'.
Proof.
  apply (@confidence_order_independent
           [17 # 20; 1 # 10; 1 # 20] [1 # 10; 17 # 20; 1 # 20] (17 # 20)).
  - apply perm_swap.
  - reflexivity.
Defined.

Lemma batch_pipeline_witness :
  exists (p : prediction) (conf : list Q),
    predict_fn
      (mk_ndarray [2%nat; 3%nat]
         (PList [PList [PInt 0; PInt 12; PFloat (1 # 2)];
                 PList [PInt 0; PInt 3; PFloat (1 # 2)]]))
      afternoon_model = inr p
    /\ output_fn Sample.dumps p application_json
       = inr (Sample.dumps
                (PDict [("optimal_hours", PList (map PInt [14%Z; 14%Z]));
                        ("confidence", PList (map PFloat conf))]),
              application_json)
    /\ List.length [14%Z; 14%Z]
       = List.length [[]; [("hour_of_day", PInt 3)]]
    /\ List.length conf = List.length [[]; [("hour_of_day", PInt 3)]].
Proof.
  apply (@batch_pipeline Sample.loads Sample.dumps afternoon_model
           (Sample.body_of Sample.partial_payload) Sample.partial_payload
           [[]; [("hour_of_day", PInt 3)]]
           (mk_ndarray [2%nat; 3%nat]
              (PList [PList [PInt 0; PInt 12; PFloat (1 # 2)];
                      PList [PInt 0; PInt 3; PFloat (1 # 2)]]))
           [14%Z; 14%Z] [[1]; [1]]);
    reflexivity.
Defined.

Lemma suite_passes_without_validation_witness :
  exists w' : nat,
    main SampleEndpoint.answers SampleEndpoint.in_service
         SampleEndpoint.loads Sample.dumps "optimal-call-time" 0%nat
    = (inr 0%Z, w').
Proof.
  apply (@suite_passes_without_validation nat SampleEndpoint.answers
           SampleEndpoint.in_service SampleEndpoint.loads Sample.dumps
           "optimal-call-time" 0%nat).
  - intros name w. eexists. reflexivity.
  - intros name content_type body w. do 3 eexists. split; reflexivity.
Defined.

Lemma suite_fails_when_rejected_witness :
  exists w' : nat,
    main SampleEndpoint.rejects SampleEndpoint.in_service
         SampleEndpoint.loads Sample.dumps "optimal-call-time" 0%nat
    = (inr 1%Z, w').
Proof.
  apply (@suite_fails_when_rejected nat SampleEndpoint.rejects
           SampleEndpoint.in_service SampleEndpoint.loads Sample.dumps
           "optimal-call-time" 0%nat).
  - intros name w. eexists. reflexivity.
  - intros name content_type body w. do 2 eexists. reflexivity.
Defined.

Lemma no_test_unless_in_service_witness :
  main SampleEndpoint.answers SampleEndpoint.creating
       SampleEndpoint.loads Sample.dumps "optimal-call-time" 0%nat
  = (inr 1%Z, 1%nat).
Proof.
  apply (@no_test_unless_in_service nat SampleEndpoint.answers
           SampleEndpoint.creating SampleEndpoint.loads Sample.dumps
           "optimal-call-time" 0%nat 1%nat (inr "Creating")).
  - reflexivity.
  - left. exists "Creating". split; [reflexivity | discriminate].
Defined.

Lemma suite_aborts_on_garbled_response_witness :
  main SampleEndpoint.garbles SampleEndpoint.in_service
       SampleEndpoint.loads Sample.dumps "optimal-call-time" 0%nat
  = (inl ResponseNotJSON, 2%nat).
Proof.
  apply (@suite_aborts_on_garbled_response nat SampleEndpoint.garbles
           SampleEndpoint.in_service SampleEndpoint.loads Sample.dumps
           "optimal-call-time" "<html>" 0%nat 1%nat 2%nat);
    reflexivity.
Defined.

(** X19.  The number of entries of ['features'] is not checked: a flat
    list of [n] elements, for any [n], is returned as an array of shape
    (1, n). *)
Theorem features_length_unchecked
        (json_loads : string -> option pyval) (body : string) (d : pydict)
        (xs : list pyval) :
  json_loads body = Some (PDict d) ->
  dict_get "features" d = Some (PList xs) ->
  forallb is_scalar xs = true ->
  input_fn json_loads body application_json
  = inr (mk_ndarray [1%nat; List.length xs] (PList [PList xs])).
Proof.
  intros Hbody Hfeat Hflat.
  rewrite (input_fn_json _ _ Hbody), (normalize_features _ Hfeat).
  apply (@np_array_single (PList xs) [List.length xs]).
  - apply shape_of_flat. assumption.
  - unfold NPY_MAXDIMS. simpl. lia.
Qed.

Lemma features_length_unchecked_witness :
  input_fn (Sample.loads_of
              [("five", PDict [("features",
                                PList [PInt 1; PInt 2; PInt 3; PInt 4;
                                       PInt 5])])])
           "five" application_json
  = inr (mk_ndarray
           [1%nat; List.length [PInt 1; PInt 2; PInt 3; PInt 4; PInt 5]]
           (PList [PList [PInt 1; PInt 2; PInt 3; PInt 4; PInt 5]])).
Proof.
  apply (@features_length_unchecked
           (Sample.loads_of
              [("five", PDict [("features",
                                PList [PInt 1; PInt 2; PInt 3; PInt 4;
                                       PInt 5])])])
           "five"
           [("features", PList [PInt 1; PInt 2; PInt 3; PInt 4; PInt 5])]
           [PInt 1; PInt 2; PInt 3; PInt 4; PInt 5]);
    reflexivity.
Defined.
